(** * Delegated credential issuance and verification of atoa_go

    A shallow embedding of [token.go], [agent.go] and [org.go] together with
    the parts of their dependencies that decide the behaviour of that code:
    the JSON encoding of Go values ([encoding/json]), the parser and
    validator of [github.com/golang-jwt/jwt/v5], [encoding/pem] and
    [encoding/base64].

    Modelling conventions.
    - A Go [string] or [[]byte] is a Rocq [string] (a sequence of bytes).
    - Times are whole seconds ([Z]).  [jwt.NewNumericDate] truncates to the
      second, so an issued-at or expiry is the floor of the wall clock; a
      comparison [now.Before(t)] with [t] a whole second is [floor now < t],
      so reading clocks as their floor is exact for these comparisons.
    - A token string is modelled by its three decoded segments
      ([Compact header claims signature]): the header and the claims as JSON
      values, as the decoder of [encoding/json] sees them after unquoting,
      and the signature bytes.  Strings that do not split into three
      base64url segments with JSON header and claims are [Unparseable].
      The base64url and JSON text layers in between are exact for the
      values the encoder produces (string values are first coerced to
      valid UTF-8, as [json.Marshal] does).
    - ECDSA is an abstract signature scheme (the type class [ECDSA]) with
      only its correctness law; the randomness of [ecdsa.Sign] is an
      explicit nonce argument.
    - Go errors carry their message ([Error()]) and the sentinels they wrap
      (what [errors.Is] can find). *)

From Stdlib Require Import String Ascii ZArith List Bool Lia.
Import ListNotations.
Local Open Scope string_scope.
Local Open Scope Z_scope.
Local Set Warnings "-register-all".

(* ------------------------------------------------------------------ *)
(** ** Bytes and UTF-8 ([unicode/utf8]) *)

Definition code (a : ascii) : nat := nat_of_ascii a.

Definition in_range (lo hi : nat) (a : ascii) : bool :=
  (Nat.leb lo (code a) && Nat.leb (code a) hi)%bool.

Definition is_continuation : ascii -> bool := in_range 128 191.

(** The accepted two-, three- and four-byte sequences of [utf8.DecodeRune]
    (no overlong forms, no surrogates, nothing above U+10FFFF). *)
Definition rune2 (a b : ascii) : bool := in_range 194 223 a && is_continuation b.

Definition rune3 (a b c : ascii) : bool :=
  ((in_range 224 224 a && in_range 160 191 b)
   || ((in_range 225 236 a || in_range 238 239 a) && is_continuation b)
   || (in_range 237 237 a && in_range 128 159 b)) && is_continuation c.

Definition rune4 (a b c d : ascii) : bool :=
  ((in_range 240 240 a && in_range 144 191 b)
   || (in_range 241 243 a && is_continuation b)
   || (in_range 244 244 a && in_range 128 143 b))
  && is_continuation c && is_continuation d.

(** U+FFFD in UTF-8. *)
Definition RuneError : string :=
  String (ascii_of_nat 239) (String (ascii_of_nat 191) (String (ascii_of_nat 189) EmptyString)).

(** [utf8.ValidString]. *)
Fixpoint ValidString (s : string) : bool :=
  match s with
  | EmptyString => true
  | String a s1 =>
    if Nat.ltb (code a) 128 then ValidString s1 else
    match s1 with
    | EmptyString => false
    | String b s2 =>
      if rune2 a b then ValidString s2 else
      match s2 with
      | EmptyString => false
      | String c s3 =>
        if rune3 a b c then ValidString s3 else
        match s3 with
        | EmptyString => false
        | String d s4 => if rune4 a b c d then ValidString s4 else false
        end
      end
    end
  end.

(** What [encoding/json]'s encoder writes for a Go string: "String values
    encode as JSON strings coerced to valid UTF-8, replacing invalid bytes
    with the Unicode replacement rune" (each byte on which [DecodeRune]
    reports [RuneError] with size 1 becomes U+FFFD). *)
Fixpoint coerce_utf8 (s : string) : string :=
  match s with
  | EmptyString => EmptyString
  | String a s1 =>
    if Nat.ltb (code a) 128 then String a (coerce_utf8 s1) else
    match s1 with
    | EmptyString => RuneError ++ coerce_utf8 s1
    | String b s2 =>
      if rune2 a b then String a (String b (coerce_utf8 s2)) else
      match s2 with
      | EmptyString => RuneError ++ coerce_utf8 s1
      | String c s3 =>
        if rune3 a b c then String a (String b (String c (coerce_utf8 s3))) else
        match s3 with
        | EmptyString => RuneError ++ coerce_utf8 s1
        | String d s4 =>
          if rune4 a b c d then String a (String b (String c (String d (coerce_utf8 s4))))
          else RuneError ++ coerce_utf8 s1
        end
      end
    end
  end.

Definition nl : string := String (ascii_of_nat 10) EmptyString.

(* ------------------------------------------------------------------ *)
(** ** Go errors *)

(** The sentinel errors of jwt/v5 ([errors.go], [ecdsa.go]) that matter here. *)
Inductive ErrKind :=
| ErrInvalidKey
| ErrInvalidKeyType
| ErrECDSAVerification
| ErrTokenMalformed
| ErrTokenUnverifiable
| ErrTokenSignatureInvalid
| ErrTokenRequiredClaimMissing
| ErrTokenInvalidClaims
| ErrTokenExpired
| ErrTokenUsedBeforeIssued
| ErrTokenNotValidYet
| ErrInvalidType.

Scheme Equality for ErrKind.

Definition sentinel_text (k : ErrKind) : string :=
  match k with
  | ErrInvalidKey => "key is invalid"
  | ErrInvalidKeyType => "key is of invalid type"
  | ErrECDSAVerification => "crypto/ecdsa: verification error"
  | ErrTokenMalformed => "token is malformed"
  | ErrTokenUnverifiable => "token is unverifiable"
  | ErrTokenSignatureInvalid => "token signature is invalid"
  | ErrTokenRequiredClaimMissing => "token is missing required claim"
  | ErrTokenInvalidClaims => "token has invalid claims"
  | ErrTokenExpired => "token is expired"
  | ErrTokenUsedBeforeIssued => "token used before issued"
  | ErrTokenNotValidYet => "token is not valid yet"
  | ErrInvalidType => "invalid type for claim"
  end.

(** An [error] value: its message and the sentinels in its wrap tree. *)
Record error := mkError { err_msg : string; err_is : list ErrKind }.

Definition sentinel (k : ErrKind) : error := mkError (sentinel_text k) [k].

(** [errors.New(msg)]. *)
Definition errors_New (msg : string) : error := mkError msg [].

(** [fmt.Errorf(prefix + "%w", e)]. *)
Definition errorf_w (prefix : string) (e : error) : error :=
  mkError (prefix ++ err_msg e) (err_is e).

(** [errors.Is(e, k)]. *)
Definition errors_Is (e : error) (k : ErrKind) : bool :=
  existsb (ErrKind_beq k) (err_is e).

(** [errors.Join(errs...)]. *)
Definition joinErrors (es : list error) : error :=
  mkError (String.concat nl (map err_msg es)) (flat_map err_is es).

(** jwt's [newError(message, err, more...)]: [fmt.Errorf] with one [%w]
    per wrapped error. *)
Definition newError (message : string) (err : error) (more : list error) : error :=
  mkError
    ((if String.eqb message "" then err_msg err else err_msg err ++ ": " ++ message)
     ++ String.concat "" (map (fun e => ": " ++ err_msg e) more))
    (err_is err ++ flat_map err_is more)%list.

(** The two results of a fallible Go function. *)
Inductive result (A : Type) : Type :=
| Ok (a : A)
| Err (e : error).
Arguments Ok {A} a.
Arguments Err {A} e.

Definition is_err {A} (r : result A) : bool :=
  match r with Ok _ => false | Err _ => true end.

Definition err_kind {A} (r : result A) (k : ErrKind) : bool :=
  match r with Ok _ => false | Err e => errors_Is e k end.

(* ------------------------------------------------------------------ *)
(** ** JSON values and [encoding/json] *)

(** A JSON value as the decoder sees it (numbers are whole numbers here:
    every number this code writes is a Unix time in seconds). *)
Inductive json :=
| JNull
| JBool (b : bool)
| JNum (n : Z)
| JStr (s : string)
| JArr (l : list json)
| JObj (kv : list (string * json)).

(** The encoder's view of a Go string. *)
Definition marshal_string (s : string) : json := JStr (coerce_utf8 s).

(** Object keys are matched to struct fields ignoring ASCII case, as the
    decoder's fold matching does for these (ASCII) field names. *)
Definition ascii_lower (a : ascii) : ascii :=
  if in_range 65 90 a then ascii_of_nat (code a + 32) else a.

Fixpoint fold_name (s : string) : string :=
  match s with
  | EmptyString => EmptyString
  | String a s' => String (ascii_lower a) (fold_name s')
  end.

Definition field_matches (key name : string) : bool :=
  String.eqb (fold_name key) (fold_name name).

(** Decoding a JSON value into a field that holds [old]; [None] is a
    decoding error.  [null] leaves a string or bool field unchanged. *)
Definition decode_string (v : json) (old : string) : option string :=
  match v with JStr s => Some s | JNull => Some old | _ => None end.

Definition decode_bool (v : json) (old : bool) : option bool :=
  match v with JBool b => Some b | JNull => Some old | _ => None end.

Fixpoint digits_value (s : string) (acc : Z) : option Z :=
  match s with
  | EmptyString => Some acc
  | String c s' =>
    if in_range 48 57 c then digits_value s' (acc * 10 + Z.of_nat (code c - 48))
    else None
  end.

(** A JSON string holding an (integer) number literal, as [json.Number]
    accepts it. *)
Definition parse_int_literal (s : string) : option Z :=
  let '(neg, body) :=
    match s with
    | String c r => if in_range 45 45 c then (true, r) else (false, s)
    | EmptyString => (false, s)
    end in
  let sign z := if neg then - z else z in
  match body with
  | EmptyString => None
  | String c r =>
    if in_range 48 48 c then
      match r with EmptyString => Some 0 | _ => None end
    else if in_range 49 57 c then option_map sign (digits_value body 0)
    else None
  end.

(** [*NumericDate]: [null] sets the pointer to nil; otherwise
    [NumericDate.UnmarshalJSON] reads a [json.Number].  The seconds are kept
    as written: this is what jwt reads for whole numbers of magnitude at
    most 2^53 (see [exact_seconds]); beyond, jwt's float64 and int64
    conversions change the value, and fractional or exponent forms, which
    jwt reads through a float64, are not read here. *)
Definition decode_numeric_date (v : json) : option (option Z) :=
  match v with
  | JNull => Some None
  | JNum n => Some (Some n)
  | JStr s => option_map Some (parse_int_literal s)
  | _ => None
  end.

(** [ClaimStrings.UnmarshalJSON]: a single string or an array of strings. *)
Fixpoint all_strings (l : list json) : option (list string) :=
  match l with
  | [] => Some []
  | JStr s :: l' => option_map (cons s) (all_strings l')
  | _ :: _ => None
  end.

Definition decode_claim_strings (v : json) : option (list string) :=
  match v with
  | JNull => Some []
  | JStr s => Some [s]
  | JArr l => all_strings l
  | _ => None
  end.

(** A [[]string] field: [null] gives a nil slice, a [null] element the
    empty string. *)
Fixpoint string_elems (l : list json) : option (list string) :=
  match l with
  | [] => Some []
  | JStr s :: l' => option_map (cons s) (string_elems l')
  | JNull :: l' => option_map (cons "") (string_elems l')
  | _ :: _ => None
  end.

Definition decode_string_slice (v : json) : option (list string) :=
  match v with
  | JNull => Some []
  | JArr l => string_elems l
  | _ => None
  end.

(** [json.Unmarshal] into a struct value [c]: each key of the object sets
    the field it names ([field]), unknown keys are ignored, [null] leaves
    the struct as it is, anything else than an object is an error. *)
Fixpoint decode_fields {C} (field : string -> json -> C -> option C)
    (kv : list (string * json)) (c : C) : option C :=
  match kv with
  | [] => Some c
  | (k, v) :: kv' =>
    match field k v c with
    | Some c' => decode_fields field kv' c'
    | None => None
    end
  end.

Definition unmarshal_struct {C} (field : string -> json -> C -> option C)
    (v : json) (c : C) : option C :=
  match v with
  | JObj kv => decode_fields field kv c
  | JNull => Some c
  | _ => None
  end.

(** Lookup in a decoded [map[string]interface{}] (the last duplicate key
    wins). *)
Fixpoint map_lookup (k : string) (kv : list (string * json)) : option json :=
  match kv with
  | [] => None
  | (k', v) :: kv' =>
    match map_lookup k kv' with
    | Some w => Some w
    | None => if String.eqb k k' then Some v else None
    end
  end.

(* ------------------------------------------------------------------ *)
(** ** Claims ([jwt.RegisteredClaims], [OrgTokenClaims], [AgentTokenClaims]) *)

Record RegisteredClaims := mkRegisteredClaims {
  Issuer : string;
  Subject : string;
  Audience : list string;
  ExpiresAt : option Z;
  NotBefore : option Z;
  IssuedAt : option Z;
  ID : string
}.

Definition zero_RegisteredClaims : RegisteredClaims :=
  mkRegisteredClaims "" "" [] None None None "".

(** [json:"iss,omitempty"], ..., [json:"jti,omitempty"], in field order. *)
Definition marshal_registered (r : RegisteredClaims) : list (string * json) :=
  ((if String.eqb (Issuer r) "" then [] else [("iss", marshal_string (Issuer r))])
   ++ (if String.eqb (Subject r) "" then [] else [("sub", marshal_string (Subject r))])
   ++ (match Audience r with
       | [] => []
       | l => [("aud", JArr (map marshal_string l))]
       end)
   ++ (match ExpiresAt r with None => [] | Some t => [("exp", JNum t)] end)
   ++ (match NotBefore r with None => [] | Some t => [("nbf", JNum t)] end)
   ++ (match IssuedAt r with None => [] | Some t => [("iat", JNum t)] end)
   ++ (if String.eqb (ID r) "" then [] else [("jti", marshal_string (ID r))]))%list.

Definition decode_registered (k : string) (v : json) (r : RegisteredClaims)
    : option RegisteredClaims :=
  let '(mkRegisteredClaims iss sub aud exp nbf iat jti) := r in
  if field_matches k "iss" then
    option_map (fun s => mkRegisteredClaims s sub aud exp nbf iat jti) (decode_string v iss)
  else if field_matches k "sub" then
    option_map (fun s => mkRegisteredClaims iss s aud exp nbf iat jti) (decode_string v sub)
  else if field_matches k "aud" then
    option_map (fun a => mkRegisteredClaims iss sub a exp nbf iat jti) (decode_claim_strings v)
  else if field_matches k "exp" then
    option_map (fun t => mkRegisteredClaims iss sub aud t nbf iat jti) (decode_numeric_date v)
  else if field_matches k "nbf" then
    option_map (fun t => mkRegisteredClaims iss sub aud exp t iat jti) (decode_numeric_date v)
  else if field_matches k "iat" then
    option_map (fun t => mkRegisteredClaims iss sub aud exp nbf t jti) (decode_numeric_date v)
  else if field_matches k "jti" then
    option_map (fun s => mkRegisteredClaims iss sub aud exp nbf iat s) (decode_string v jti)
  else Some r.

(** [OrgTokenClaims] (token.go). *)
Record OrgTokenClaims := mkOrgTokenClaims {
  oc_RegisteredClaims : RegisteredClaims;
  oc_OrgID : string;     (* json:"org_id" *)
  oc_Verified : bool     (* json:"verified" *)
}.

Definition zero_OrgTokenClaims : OrgTokenClaims :=
  mkOrgTokenClaims zero_RegisteredClaims "" false.

Definition marshal_OrgTokenClaims (c : OrgTokenClaims) : json :=
  JObj (marshal_registered (oc_RegisteredClaims c)
        ++ [("org_id", marshal_string (oc_OrgID c)); ("verified", JBool (oc_Verified c))])%list.

Definition decode_OrgTokenClaims_field (k : string) (v : json) (c : OrgTokenClaims)
    : option OrgTokenClaims :=
  let '(mkOrgTokenClaims r org ver) := c in
  if field_matches k "org_id" then
    option_map (fun s => mkOrgTokenClaims r s ver) (decode_string v org)
  else if field_matches k "verified" then
    option_map (fun b => mkOrgTokenClaims r org b) (decode_bool v ver)
  else option_map (fun r' => mkOrgTokenClaims r' org ver) (decode_registered k v r).

(** [AgentTokenClaims] (token.go). *)
Record AgentTokenClaims := mkAgentTokenClaims {
  ac_RegisteredClaims : RegisteredClaims;
  ac_AgentID : string;            (* json:"agent_id" *)
  ac_OrgID : string;              (* json:"org_id" *)
  ac_Verified : bool;             (* json:"verified" *)
  ac_Capabilities : list string   (* json:"capabilities" *)
}.

Definition zero_AgentTokenClaims : AgentTokenClaims :=
  mkAgentTokenClaims zero_RegisteredClaims "" "" false [].

(** A nil [[]string] encodes as [null] (no omitempty); the model does not
    tell a nil slice from an empty one, and both decode to the empty list. *)
Definition marshal_string_slice (l : list string) : json :=
  match l with [] => JNull | _ => JArr (map marshal_string l) end.

Definition marshal_AgentTokenClaims (c : AgentTokenClaims) : json :=
  JObj (marshal_registered (ac_RegisteredClaims c)
        ++ [("agent_id", marshal_string (ac_AgentID c));
            ("org_id", marshal_string (ac_OrgID c));
            ("verified", JBool (ac_Verified c));
            ("capabilities", marshal_string_slice (ac_Capabilities c))])%list.

Definition decode_AgentTokenClaims_field (k : string) (v : json) (c : AgentTokenClaims)
    : option AgentTokenClaims :=
  let '(mkAgentTokenClaims r ag org ver caps) := c in
  if field_matches k "agent_id" then
    option_map (fun s => mkAgentTokenClaims r s org ver caps) (decode_string v ag)
  else if field_matches k "org_id" then
    option_map (fun s => mkAgentTokenClaims r ag s ver caps) (decode_string v org)
  else if field_matches k "verified" then
    option_map (fun b => mkAgentTokenClaims r ag org b caps) (decode_bool v ver)
  else if field_matches k "capabilities" then
    option_map (fun l => mkAgentTokenClaims r ag org ver l) (decode_string_slice v)
  else option_map (fun r' => mkAgentTokenClaims r' ag org ver caps) (decode_registered k v r).

(** [jwt.MapClaims]: the decoded object. *)
Definition MapClaims := list (string * json).

(** [MapClaims.parseNumericDate]: a missing key or 0 is nil, a number is a
    date, anything else (including [null]) is [ErrInvalidType]. *)
Definition map_numeric_date (m : MapClaims) (key : string) : result (option Z) :=
  match map_lookup key m with
  | None => Ok None
  | Some (JNum 0) => Ok None
  | Some (JNum n) => Ok (Some n)
  | Some _ => Err (newError (key ++ " is invalid") (sentinel ErrInvalidType) [])
  end.

(** The [jwt.Claims] interface: how [json.Unmarshal] fills a claims value,
    and the getters the validator reads. *)
Class Claims (C : Type) := {
  claims_unmarshal : json -> C -> option C;
  GetExpirationTime : C -> result (option Z);
  GetNotBefore : C -> result (option Z);
  GetIssuedAt : C -> result (option Z)
}.
#[export] Hint Mode Claims ! : typeclass_instances.

#[export] Instance Claims_OrgTokenClaims : Claims OrgTokenClaims := {
  claims_unmarshal := unmarshal_struct decode_OrgTokenClaims_field;
  GetExpirationTime c := Ok (ExpiresAt (oc_RegisteredClaims c));
  GetNotBefore c := Ok (NotBefore (oc_RegisteredClaims c));
  GetIssuedAt c := Ok (IssuedAt (oc_RegisteredClaims c))
}.

#[export] Instance Claims_AgentTokenClaims : Claims AgentTokenClaims := {
  claims_unmarshal := unmarshal_struct decode_AgentTokenClaims_field;
  GetExpirationTime c := Ok (ExpiresAt (ac_RegisteredClaims c));
  GetNotBefore c := Ok (NotBefore (ac_RegisteredClaims c));
  GetIssuedAt c := Ok (IssuedAt (ac_RegisteredClaims c))
}.

(** Decoding into a map merges the object's keys into it ([null] leaves it). *)
#[export] Instance Claims_MapClaims : Claims MapClaims := {
  claims_unmarshal v m :=
    match v with JObj kv => Some (m ++ kv)%list | JNull => Some m | _ => None end;
  GetExpirationTime m := map_numeric_date m "exp";
  GetNotBefore m := map_numeric_date m "nbf";
  GetIssuedAt m := map_numeric_date m "iat"
}.

(* ------------------------------------------------------------------ *)
(** ** Tokens, signing methods and the ECDSA scheme *)

(** A token string, by its decoded segments (see the conventions above). *)
Inductive TokenString :=
| Compact (header : json) (claims : json) (signature : string)
| Unparseable (raw : string).

(** The [""] returned next to an error. *)
Definition empty_token : TokenString := Unparseable "".

(** Seconds that [NumericDate.UnmarshalJSON] reads back as written: it
    converts the number to a float64 ([strconv.ParseFloat]), truncates it to
    an int64 and calls [time.Unix]; for a whole number of magnitude at most
    2^53 none of these steps changes it.  A larger number is rounded by the
    float64, and out of the range of int64 and [time.Time] it wraps (or,
    past the float64 range, fails to decode). *)
Definition exact_seconds (n : Z) : bool := Z.abs n <=? 2 ^ 53.

(** A date value [decode_numeric_date] reads as seconds within that range
    ([null], and what it does not read, impose nothing). *)
Definition date_exact (v : json) : bool :=
  match decode_numeric_date v with
  | Some (Some n) => exact_seconds n
  | _ => true
  end.

(** Every key of a claims object that the decoder takes for exp, nbf or iat
    (duplicates included: each is decoded in turn) holds such a date. *)
Definition claims_dates_exact (p : json) : bool :=
  match p with
  | JObj kv =>
    forallb (fun kv1 : string * json =>
               let '(k, v) := kv1 in
               if field_matches k "exp" || field_matches k "nbf" || field_matches k "iat"
               then date_exact v else true) kv
  | _ => true
  end.

(** A token string whose claims segment has all its dates in that range:
    on such a token the seconds of the model are the ones jwt decodes. *)
Definition token_dates_exact (ts : TokenString) : bool :=
  match ts with
  | Compact _ p _ => claims_dates_exact p
  | Unparseable _ => true
  end.

(** The signing methods registered by jwt/v5.  An ECDSA method carries its
    hash size, key size in bytes and curve size in bits. *)
Inductive SigningMethod :=
| SigningMethodECDSA (Name : string) (Hash KeySize CurveBits : Z)
| SigningMethodOther (Name : string).

Definition SigningMethodES256 := SigningMethodECDSA "ES256" 256 32 256.
Definition SigningMethodES384 := SigningMethodECDSA "ES384" 384 48 384.
Definition SigningMethodES512 := SigningMethodECDSA "ES512" 512 66 521.

Definition Alg (m : SigningMethod) : string :=
  match m with SigningMethodECDSA n _ _ _ => n | SigningMethodOther n => n end.

Definition other_methods : list string :=
  ["HS256"; "HS384"; "HS512"; "RS256"; "RS384"; "RS512";
   "PS256"; "PS384"; "PS512"; "EdDSA"; "none"].

(** [jwt.GetSigningMethod]. *)
Definition GetSigningMethod (alg : string) : option SigningMethod :=
  if String.eqb alg "ES256" then Some SigningMethodES256
  else if String.eqb alg "ES384" then Some SigningMethodES384
  else if String.eqb alg "ES512" then Some SigningMethodES512
  else if existsb (String.eqb alg) other_methods then Some (SigningMethodOther alg)
  else None.

Definition is_ecdsa (m : SigningMethod) : bool :=
  match m with SigningMethodECDSA _ _ _ _ => true | _ => false end.

(** [crypto/ecdsa] as the jwt ECDSA methods use it.  [ecdsa_sign bits k n
    input] is the [r || s] that [SigningMethodECDSA.Sign] outputs for the
    method of curve size [bits] with randomness [n]; [ecdsa_verify bits pk
    input sig] is the length check and [ecdsa.Verify] of
    [SigningMethodECDSA.Verify].  The signing input (the first two segments)
    is given by their decoded JSON values.  The only law is correctness. *)
Class ECDSA := {
  PrivateKey : Type;
  PublicKey : Type;
  Public : PrivateKey -> PublicKey;     (* &privateKey.PublicKey *)
  BitSize : PrivateKey -> Z;            (* privateKey.Curve.Params().BitSize *)
  ecdsa_sign : Z -> PrivateKey -> Z -> json * json -> string;
  ecdsa_verify : Z -> PublicKey -> json * json -> string -> bool;
  ecdsa_verify_sign : forall bits k n input,
    BitSize k = bits -> ecdsa_verify bits (Public k) input (ecdsa_sign bits k n input) = true
}.

(* ------------------------------------------------------------------ *)
(** ** The jwt/v5 parser and validator *)

(** The options of [jwt.NewParser]: [WithExpirationRequired] and
    [WithIssuedAt] (no leeway, no expected audience, issuer or subject). *)
Record Parser := mkParser { requireExp : bool; verifyIat : bool }.

Definition NewParser : Parser := mkParser false false.
Definition NewParser_exp_iat : Parser := mkParser true true.

Definition json_error : error := errors_New "json: cannot unmarshal".

Definition header_map (h : json) : option (list (string * json)) :=
  match h with JObj kv => Some kv | JNull => Some [] | _ => None end.

Section Jwt.
Context {E : ECDSA}.

(** [*jwt.Token] after [ParseUnverified]. *)
Record Token (C : Type) := mkToken {
  tok_Header : list (string * json);
  tok_Method : SigningMethod;
  tok_Claims : C;
  tok_SigningInput : json * json;
  tok_Signature : string
}.
Arguments mkToken {C} _ _ _ _ _.
Arguments tok_Header {C} _.
Arguments tok_Method {C} _.
Arguments tok_Claims {C} _.
Arguments tok_SigningInput {C} _.
Arguments tok_Signature {C} _.

(** What a key function returns as [interface{}]. *)
Inductive VerificationKey :=
| KeyNil
| KeyECDSA (pk : PublicKey).

(** [Parser.ParseUnverified(tokenString, claims)]. *)
Definition ParseUnverified {C} `{Claims C} (tokenString : TokenString) (claims : C)
    : result (Token C) :=
  match tokenString with
  | Unparseable _ =>
    Err (newError "token contains an invalid number of segments" (sentinel ErrTokenMalformed) [])
  | Compact h p s =>
    match header_map h with
    | None => Err (newError "could not JSON decode header" (sentinel ErrTokenMalformed) [json_error])
    | Some hkv =>
      match claims_unmarshal p claims with
      | None => Err (newError "could not JSON decode claim" (sentinel ErrTokenMalformed) [json_error])
      | Some c =>
        match map_lookup "alg" hkv with
        | Some (JStr alg) =>
          match GetSigningMethod alg with
          | Some m => Ok (mkToken hkv m c (h, p) s)
          | None => Err (newError "signing method (alg) is unavailable" (sentinel ErrTokenUnverifiable) [])
          end
        | _ => Err (newError "signing method (alg) is unspecified" (sentinel ErrTokenUnverifiable) [])
        end
      end
    end
  end.

(** [SigningMethod.Verify(signingString, sig, key)]; [None] is success.
    The methods other than ECDSA are never given a key by the key functions
    of this repository. *)
Definition Verify (m : SigningMethod) (input : json * json) (sig : string)
    (key : VerificationKey) : option error :=
  match m with
  | SigningMethodECDSA _ _ _ bits =>
    match key with
    | KeyECDSA pk => if ecdsa_verify bits pk input sig then None else Some (sentinel ErrECDSAVerification)
    | KeyNil => Some (newError "ECDSA verify expects *ecdsa.PublicKey" (sentinel ErrInvalidKeyType) [])
    end
  | SigningMethodOther _ => Some (sentinel ErrInvalidKeyType)
  end.

(** [errorIfRequired]. *)
Definition errorIfRequired (required : bool) (claim : string) : option error :=
  if required then Some (newError (claim ++ " claim is required") (sentinel ErrTokenRequiredClaimMissing) [])
  else None.

(** [Validator.verifyExpiresAt]: valid while [now] is before [exp]. *)
Definition verifyExpiresAt {C} `{Claims C} (c : C) (now : Z) (required : bool) : option error :=
  match GetExpirationTime c with
  | Err e => Some e
  | Ok None => errorIfRequired required "exp"
  | Ok (Some exp) => if now <? exp then None else Some (sentinel ErrTokenExpired)
  end.

(** [Validator.verifyNotBefore]. *)
Definition verifyNotBefore {C} `{Claims C} (c : C) (now : Z) (required : bool) : option error :=
  match GetNotBefore c with
  | Err e => Some e
  | Ok None => errorIfRequired required "nbf"
  | Ok (Some nbf) => if now <? nbf then Some (sentinel ErrTokenNotValidYet) else None
  end.

(** [Validator.verifyIssuedAt]. *)
Definition verifyIssuedAt {C} `{Claims C} (c : C) (now : Z) (required : bool) : option error :=
  match GetIssuedAt c with
  | Err e => Some e
  | Ok None => errorIfRequired required "iat"
  | Ok (Some iat) => if now <? iat then Some (sentinel ErrTokenUsedBeforeIssued) else None
  end.

Definition opt_list {A} (o : option A) : list A :=
  match o with Some a => [a] | None => [] end.

(** [Validator.Validate]: the issued-at check is enabled by [WithIssuedAt]
    and, like not-before, is never required. *)
Definition Validator_Validate {C} `{Claims C} (p : Parser) (c : C) (now : Z) : option error :=
  let errs :=
    (opt_list (verifyExpiresAt c now (requireExp p))
     ++ opt_list (verifyNotBefore c now false)
     ++ (if verifyIat p then opt_list (verifyIssuedAt c now false) else []))%list in
  match errs with
  | [] => None
  | _ => Some (joinErrors errs)
  end.

(** [Parser.ParseWithClaims(tokenString, claims, keyFunc)], at time [now]. *)
Definition ParseWithClaims {C} `{Claims C} (p : Parser) (tokenString : TokenString)
    (claims : C) (keyFunc : Token C -> result VerificationKey) (now : Z) : result (Token C) :=
  match ParseUnverified tokenString claims with
  | Err e => Err e
  | Ok t =>
    match keyFunc t with
    | Err e => Err (newError "error while executing keyfunc" (sentinel ErrTokenUnverifiable) [e])
    | Ok key =>
      match Verify (tok_Method t) (tok_SigningInput t) (tok_Signature t) key with
      | Some e => Err (newError "" (sentinel ErrTokenSignatureInvalid) [e])
      | None =>
        match Validator_Validate p (tok_Claims t) now with
        | Some e => Err (newError "" (sentinel ErrTokenInvalidClaims) [e])
        | None => Ok t
        end
      end
    end
  end.

(** The key functions of token.go and agent.go: refuse any method that is
    not ECDSA, then hand out [key] ([publicKey], or [nil] in the keyless
    parsers). *)
Definition ecdsa_keyfunc {C} (key : VerificationKey) (t : Token C) : result VerificationKey :=
  if is_ecdsa (tok_Method t) then Ok key
  else Err (errors_New ("unexpected signing method: " ++ Alg (tok_Method t))).

(** [SigningMethod.Sign]: ES256 refuses a key whose curve is not 256 bits. *)
Definition Sign (m : SigningMethod) (input : json * json) (k : PrivateKey) (nonce : Z)
    : result string :=
  match m with
  | SigningMethodECDSA _ _ _ bits =>
    if BitSize k =? bits then Ok (ecdsa_sign bits k nonce input) else Err (sentinel ErrInvalidKey)
  | SigningMethodOther _ => Err (sentinel ErrInvalidKeyType)
  end.

(** [jwt.NewWithClaims(m, claims).SignedString(k)]; the header map encodes
    with sorted keys. *)
Definition header_of (m : SigningMethod) : json :=
  JObj [("alg", JStr (Alg m)); ("typ", JStr "JWT")].

Definition SignedString (m : SigningMethod) (claims : json) (k : PrivateKey) (nonce : Z)
    : TokenString * option error :=
  let h := header_of m in
  match Sign m (h, claims) k nonce with
  | Ok sig => (Compact h claims sig, None)
  | Err e => (empty_token, Some e)
  end.

End Jwt.

Arguments mkToken {C} _ _ _ _ _.
Arguments tok_Header {C} _.
Arguments tok_Method {C} _.
Arguments tok_Claims {C} _.
Arguments tok_SigningInput {C} _.
Arguments tok_Signature {C} _.

(* ------------------------------------------------------------------ *)
(** ** token.go and agent.go *)

Definition TokenIssuer : string := "atoa.platform".
Definition OrgTokenAudience : string := "atoa.agent".
Definition AgentTokenAudience : string := "atoa.session".
(** [1 * time.Hour], in seconds. *)
Definition DefaultTokenExpiry : Z := 3600.

(** [AgentCard] (agent.go). *)
Record AgentCard := mkAgentCard {
  card_AgentID : string;
  card_OrgID : string;
  card_Capabilities : list string;
  card_Endpoints : list string;
  card_Verified : bool
}.

(** [AgentCard.Validate]; [None] is a nil error. *)
Definition AgentCard_Validate (ac : AgentCard) : option error :=
  if String.eqb (card_AgentID ac) "" then Some (errors_New "agent_id is required")
  else if String.eqb (card_OrgID ac) "" then Some (errors_New "org_id is required")
  else match card_Capabilities ac with
       | [] => Some (errors_New "at least one capability is required")
       | _ => None
       end.

Definition err_org_id_mismatch : error := errors_New "org_id mismatch between card and token".

Section Token.
Context {E : ECDSA}.

(** [IssueOrgToken(orgID, verified, privateKey)] at wall-clock second [now],
    with signing randomness [nonce]. *)
Definition IssueOrgToken (now nonce : Z) (orgID : string) (verified : bool)
    (privateKey : PrivateKey) : TokenString * option error :=
  let claims :=
    mkOrgTokenClaims
      (mkRegisteredClaims TokenIssuer "" [OrgTokenAudience]
         (Some (now + DefaultTokenExpiry)) None (Some now) "")
      orgID verified in
  SignedString SigningMethodES256 (marshal_OrgTokenClaims claims) privateKey nonce.

(** [ParseTokenWithPublicKey(tokenString, publicKey, claims)] at second
    [now]: the error, or (for a nil error) the claims it filled in. *)
Definition ParseTokenWithPublicKey {C} `{Claims C} (tokenString : TokenString)
    (publicKey : PublicKey) (claims : C) (now : Z) : result C :=
  match ParseWithClaims NewParser_exp_iat tokenString claims (ecdsa_keyfunc (KeyECDSA publicKey)) now with
  | Ok t => Ok (tok_Claims t)
  | Err e => Err e
  end.

(** [IssueAgentToken(card, orgToken, privateKey)]: [vnow] is the second
    the validator reads, [now] the one of the agent claims. *)
Definition IssueAgentToken (vnow now nonce : Z) (card : AgentCard) (orgToken : TokenString)
    (privateKey : PrivateKey) : TokenString * option error :=
  match ParseTokenWithPublicKey orgToken (Public privateKey) zero_OrgTokenClaims vnow with
  | Err e => (empty_token, Some (errorf_w "invalid org token: " e))
  | Ok orgClaims =>
    if negb (String.eqb (oc_OrgID orgClaims) (card_OrgID card)) then
      (empty_token, Some err_org_id_mismatch)
    else
      let claims :=
        mkAgentTokenClaims
          (mkRegisteredClaims TokenIssuer "" [AgentTokenAudience]
             (Some (now + DefaultTokenExpiry)) None (Some now) "")
          (card_AgentID card) (card_OrgID card) (oc_Verified orgClaims)
          (card_Capabilities card) in
      SignedString SigningMethodES256 (marshal_AgentTokenClaims claims) privateKey nonce
  end.

(** [ParseOrgToken(tokenString)]. *)
Definition ParseOrgToken (tokenString : TokenString) (now : Z) : result OrgTokenClaims :=
  match ParseUnverified tokenString zero_OrgTokenClaims with
  | Err e => Err (errorf_w "failed to parse token: " e)
  | Ok _ =>
    match ParseWithClaims NewParser_exp_iat tokenString zero_OrgTokenClaims (ecdsa_keyfunc KeyNil) now with
    | Err e => Err (errorf_w "failed to parse token: " e)
    | Ok t => Ok (tok_Claims t)
    end
  end.

(** [ParseAgentTokenClaims(tokenString)]. *)
Definition ParseAgentTokenClaims (tokenString : TokenString) (now : Z) : result AgentTokenClaims :=
  match ParseUnverified tokenString zero_AgentTokenClaims with
  | Err e => Err (errorf_w "failed to parse token: " e)
  | Ok _ =>
    match ParseWithClaims NewParser_exp_iat tokenString zero_AgentTokenClaims (ecdsa_keyfunc KeyNil) now with
    | Err e => Err (errorf_w "failed to parse token: " e)
    | Ok t => Ok (tok_Claims t)
    end
  end.

End Token.

(** [AgentToken] (agent.go). *)
Record AgentToken := mkAgentToken {
  at_AgentID : string;
  at_OrgID : string;
  at_Verified : bool;
  at_Capabilities : list string;
  at_Exp : Z;
  at_Iss : string;
  at_Aud : string
}.

(** [AgentToken.Validate] at second [now]. *)
Definition AgentToken_Validate (tk : AgentToken) (now : Z) : option error :=
  if String.eqb (at_AgentID tk) "" then Some (errors_New "agent_id is required")
  else if String.eqb (at_OrgID tk) "" then Some (errors_New "org_id is required")
  else if at_Exp tk =? 0 then Some (errors_New "expiration time is required")
  else if String.eqb (at_Iss tk) "" then Some (errors_New "issuer is required")
  else if String.eqb (at_Aud tk) "" then Some (errors_New "audience is required")
  else if now >? at_Exp tk then Some (errors_New "token is expired")
  else None.

(** The claim getters of agent.go over [jwt.MapClaims]. *)
Definition getStringClaim (claims : MapClaims) (key : string) : string :=
  match map_lookup key claims with Some (JStr s) => s | _ => "" end.

Definition getBoolClaim (claims : MapClaims) (key : string) : bool :=
  match map_lookup key claims with Some (JBool b) => b | _ => false end.

Definition getFloatClaim (claims : MapClaims) (key : string) : Z :=
  match map_lookup key claims with Some (JNum n) => n | _ => 0 end.

Definition getStringSliceClaim (claims : MapClaims) (key : string) : list string :=
  match map_lookup key claims with
  | Some (JArr l) => map (fun v => match v with JStr s => s | _ => "" end) l
  | _ => []
  end.

Section AgentParse.
Context {E : ECDSA}.

(** [ParseAgentToken(tokenString)]: [jwt.Parse] decodes into [MapClaims]. *)
Definition ParseAgentToken (tokenString : TokenString) (now : Z) : result AgentToken :=
  match ParseWithClaims NewParser_exp_iat tokenString ([] : MapClaims) (ecdsa_keyfunc KeyNil) now with
  | Err e => Err (errorf_w "failed to parse JWT: " e)
  | Ok t =>
    let claims := tok_Claims t in
    let agentToken :=
      mkAgentToken (getStringClaim claims "agent_id") (getStringClaim claims "org_id")
        (getBoolClaim claims "verified") (getStringSliceClaim claims "capabilities")
        (getFloatClaim claims "exp") (getStringClaim claims "iss") (getStringClaim claims "aud") in
    match AgentToken_Validate agentToken now with
    | Some e => Err (errorf_w "invalid token: " e)
    | None => Ok agentToken
    end
  end.

End AgentParse.

(* ------------------------------------------------------------------ *)
(** ** A concrete instance of the signature scheme

    Used only to run the definitions on concrete inputs: the signature is
    the key's name, so it satisfies correctness (and nothing more). *)

#[refine] Instance ToyECDSA : ECDSA := {
  PrivateKey := string * Z;
  PublicKey := string;
  Public k := fst k;
  BitSize k := snd k;
  ecdsa_sign bits k n input := fst k;
  ecdsa_verify bits pk input sig := String.eqb sig pk
}.
Proof. intros. apply String.eqb_refl. Defined.

Definition toy_key : string * Z := ("platform", 256).

(* ------------------------------------------------------------------ *)
(** ** [encoding/base64] (StdEncoding) *)

Definition is_char (n : nat) (c : ascii) : bool := Nat.eqb (code c) n.

Definition b64_value (c : ascii) : option Z :=
  let n := Z.of_nat (code c) in
  if in_range 65 90 c then Some (n - 65)
  else if in_range 97 122 c then Some (n - 71)
  else if in_range 48 57 c then Some (n + 4)
  else if is_char 43 c then Some 62
  else if is_char 47 c then Some 63
  else None.

Definition byte_of_Z (z : Z) : ascii := ascii_of_nat (Z.to_nat (z mod 256)).

(** The decoder skips carriage returns and newlines anywhere. *)
Fixpoint strip_newlines (s : string) : string :=
  match s with
  | EmptyString => EmptyString
  | String c s' => if is_char 10 c || is_char 13 c then strip_newlines s' else String c (strip_newlines s')
  end.

(** Quanta of four characters; padding ([=] or [==]) only in the last one;
    bits left over by padding are ignored (StdEncoding is not strict). *)
Fixpoint decode_quanta (s : string) : option string :=
  match s with
  | EmptyString => Some EmptyString
  | String a (String b (String c (String d rest))) =>
    match b64_value a, b64_value b with
    | Some va, Some vb =>
      if is_char 61 c then
        match rest with
        | EmptyString => if is_char 61 d then Some (String (byte_of_Z (va * 4 + vb / 16)) EmptyString) else None
        | _ => None
        end
      else
        match b64_value c with
        | None => None
        | Some vc =>
          let n := va * 262144 + vb * 4096 + vc * 64 in
          if is_char 61 d then
            match rest with
            | EmptyString =>
              Some (String (byte_of_Z (n / 65536)) (String (byte_of_Z (n / 256)) EmptyString))
            | _ => None
            end
          else
            match b64_value d with
            | None => None
            | Some vd =>
              let n := n + vd in
              option_map
                (fun r => String (byte_of_Z (n / 65536)) (String (byte_of_Z (n / 256))
                            (String (byte_of_Z n) r)))
                (decode_quanta rest)
            end
        end
    | _, _ => None
    end
  | _ => None
  end.

(** [base64.StdEncoding.DecodeString]; [None] is a [CorruptInputError]. *)
Definition StdEncoding_DecodeString (s : string) : option string :=
  decode_quanta (strip_newlines s).

(** [base64.StdEncoding.EncodeToString]: each group of three bytes becomes
    four characters of the standard alphabet; a final group of one or two
    bytes is padded with [=]. *)
Definition encodeStd : string :=
  "ABCDEFGHIJKLMNOPQRSTUVWXYZabcdefghijklmnopqrstuvwxyz0123456789+/".

Definition byte_value (a : ascii) : Z := Z.of_nat (code a).

(** [enc.encode[v & 0x3F]]. *)
Definition enc_char (v : Z) : ascii :=
  match String.get (Z.to_nat (Z.land v 63)) encodeStd with Some c => c | None => "A"%char end.

Definition padChar : ascii := "="%char.

Fixpoint encode_quanta (s : string) : string :=
  match s with
  | String a (String b (String c rest)) =>
    let val := Z.lor (Z.lor (Z.shiftl (byte_value a) 16) (Z.shiftl (byte_value b) 8)) (byte_value c) in
    String (enc_char (Z.shiftr val 18)) (String (enc_char (Z.shiftr val 12))
      (String (enc_char (Z.shiftr val 6)) (String (enc_char val) (encode_quanta rest))))
  | String a (String b EmptyString) =>
    let val := Z.lor (Z.shiftl (byte_value a) 16) (Z.shiftl (byte_value b) 8) in
    String (enc_char (Z.shiftr val 18)) (String (enc_char (Z.shiftr val 12))
      (String (enc_char (Z.shiftr val 6)) (String padChar EmptyString)))
  | String a EmptyString =>
    let val := Z.shiftl (byte_value a) 16 in
    String (enc_char (Z.shiftr val 18)) (String (enc_char (Z.shiftr val 12))
      (String padChar (String padChar EmptyString)))
  | EmptyString => EmptyString
  end.

Definition StdEncoding_EncodeToString (src : string) : string := encode_quanta src.

(* ------------------------------------------------------------------ *)
(** ** [encoding/pem] (Decode) *)

Local Open Scope nat_scope.

Fixpoint sdrop (n : nat) (s : string) : string :=
  match n, s with
  | O, _ => s
  | S n', String _ s' => sdrop n' s'
  | S _, EmptyString => EmptyString
  end.

Fixpoint stake (n : nat) (s : string) : string :=
  match n, s with
  | O, _ => EmptyString
  | S n', String c s' => String c (stake n' s')
  | S _, EmptyString => EmptyString
  end.

Definition has_suffix (suf s : string) : bool :=
  Nat.leb (String.length suf) (String.length s)
  && String.eqb (sdrop (String.length s - String.length suf) s) suf.

(** [bytes.Cut(s, sep)]. *)
Definition cut (s sep : string) : option (string * string) :=
  match String.index 0 sep s with
  | Some i => Some (stake i s, sdrop (i + String.length sep) s)
  | None => None
  end.

Definition is_space_or_tab (c : ascii) : bool := is_char 32 c || is_char 9 c.

(** [bytes.TrimRight(s, " \t")]. *)
Definition trim_right_space_tab (s : string) : string :=
  let fix go (l : list ascii) : list ascii :=
    match l with
    | [] => []
    | c :: l' => if is_space_or_tab c then go l' else l
    end in
  string_of_list_ascii (rev (go (rev (list_ascii_of_string s)))).

(** [bytes.TrimSpace] on ASCII white space. *)
Definition is_ascii_space (c : ascii) : bool :=
  is_char 32 c || is_char 9 c || is_char 10 c || is_char 11 c || is_char 12 c || is_char 13 c.

Definition trim_space (s : string) : string :=
  let fix go (l : list ascii) : list ascii :=
    match l with
    | [] => []
    | c :: l' => if is_ascii_space c then go l' else l
    end in
  string_of_list_ascii (rev (go (rev (go (list_ascii_of_string s))))).

Fixpoint remove_spaces_and_tabs (s : string) : string :=
  match s with
  | EmptyString => EmptyString
  | String c s' => if is_space_or_tab c then remove_spaces_and_tabs s' else String c (remove_spaces_and_tabs s')
  end.

(** [getLine]: the first line without its line ending and trailing blanks,
    and the rest after the newline. *)
Definition getLine (data : string) : string * string :=
  match String.index 0 nl data with
  | None => (trim_right_space_tab data, EmptyString)
  | Some i =>
    let i' := match i with
              | S k => if is_char 13 (match String.get k data with Some c => c | None => " "%char end)
                       then k else i
              | O => O
              end in
    (trim_right_space_tab (stake i' data), sdrop (S i) data)
  end.

Definition pemStart : string := nl ++ "-----BEGIN ".
Definition pemEnd : string := nl ++ "-----END ".
Definition pemEndOfLine : string := "-----".

(** [pem.Block]. *)
Record Block := mkBlock {
  blk_Type : string;
  blk_Headers : list (string * string);
  blk_Bytes : string
}.

(** The header loop of [pem.Decode]: [None] is its [return nil, data]. *)
Fixpoint pem_headers (fuel : nat) (rest : string) (hdrs : list (string * string))
    : option (list (string * string) * string) :=
  match fuel with
  | O => None
  | S f =>
    match rest with
    | EmptyString => None
    | _ =>
      let '(line, next) := getLine rest in
      match cut line ":" with
      | None => Some (hdrs, rest)
      | Some (key, val) => pem_headers f next ((trim_space key, trim_space val) :: hdrs)
      end
    end
  end.

(** The outer loop of [pem.Decode]; each [continue] goes on with a strictly
    shorter [rest], so [length data + 1] rounds are enough. *)
Fixpoint pem_decode_loop (fuel : nat) (data rest : string) : option Block * string :=
  match fuel with
  | O => (None, data)
  | S f =>
    let after :=
      if String.prefix (sdrop 1 pemStart) rest then Some (sdrop (String.length pemStart - 1) rest)
      else match cut rest pemStart with Some (_, a) => Some a | None => None end in
    match after with
    | None => (None, data)
    | Some rest1 =>
      let '(typeLine, rest2) := getLine rest1 in
      if negb (has_suffix pemEndOfLine typeLine) then pem_decode_loop f data rest2 else
      let typ := stake (String.length typeLine - String.length pemEndOfLine) typeLine in
      match pem_headers (S (String.length rest2)) rest2 [] with
      | None => (None, data)
      | Some (hdrs, rest3) =>
        let by_index :=
          match String.index 0 pemEnd rest3 with
          | Some i => Some (i, i + String.length pemEnd)
          | None => None
          end in
        let ends :=
          match hdrs with
          | [] => if String.prefix (sdrop 1 pemEnd) rest3 then Some (0, String.length pemEnd - 1)%nat
                  else by_index
          | _ => by_index
          end in
        match ends with
        | None => pem_decode_loop f data rest3
        | Some (endIndex, endTrailerIndex) =>
          let endTrailer := sdrop endTrailerIndex rest3 in
          let endTrailerLen := (String.length typ + String.length pemEndOfLine)%nat in
          if Nat.ltb (String.length endTrailer) endTrailerLen then pem_decode_loop f data rest3 else
          let restOfEndLine := sdrop endTrailerLen endTrailer in
          let endTrailer := stake endTrailerLen endTrailer in
          if negb (String.prefix typ endTrailer && has_suffix pemEndOfLine endTrailer)
          then pem_decode_loop f data rest3 else
          if negb (Nat.eqb (String.length (fst (getLine restOfEndLine))) 0)
          then pem_decode_loop f data rest3 else
          match StdEncoding_DecodeString (remove_spaces_and_tabs (stake endIndex rest3)) with
          | None => pem_decode_loop f data rest3
          | Some bytes =>
            (Some (mkBlock typ hdrs bytes),
             snd (getLine (sdrop (endIndex + String.length pemEnd - 1) rest3)))
          end
        end
      end
    end
  end.

(** [pem.Decode(data)]. *)
Definition pem_Decode (data : string) : option Block * string :=
  pem_decode_loop (S (String.length data)) data data.

Local Open Scope Z_scope.

(* ------------------------------------------------------------------ *)
(** ** org.go *)

(** [OrgCard] (org.go). *)
Record OrgCard := mkOrgCard {
  org_OrgID : string;
  org_Name : string;
  org_Domain : string;
  org_PublicKey : string;
  org_Verified : bool
}.

Definition err_invalid_public_key_format : error := errors_New "invalid public key format".
Definition err_public_key_not_pem : error := errors_New "public key must be in PEM format".

(** [OrgCard.Validate]. *)
Definition OrgCard_Validate (oc : OrgCard) : option error :=
  if String.eqb (org_OrgID oc) "" then Some (errors_New "org_id is required")
  else if String.eqb (org_Name oc) "" then Some (errors_New "name is required")
  else if String.eqb (org_Domain oc) "" then Some (errors_New "domain is required")
  else if String.eqb (org_PublicKey oc) "" then Some (errors_New "public_key is required")
  else match fst (pem_Decode (org_PublicKey oc)) with
       | None => Some err_invalid_public_key_format
       | Some block =>
         if negb (String.eqb (blk_Type block) "PUBLIC KEY") then Some err_public_key_not_pem
         else None
       end.

(** What [x509.ParsePKIXPublicKey] returns, as far as [parsePublicKey]
    looks at it. *)
Inductive PKIXKey (K : Type) :=
| PKIXKeyECDSA (pk : K)
| PKIXKeyOther.
Arguments PKIXKeyECDSA {K} pk.
Arguments PKIXKeyOther {K}.

Section Signature.
(** [crypto/x509], [crypto/ecdsa] and [crypto/sha256], left abstract. *)
Variable EcPublicKey : Type.
Variable ParsePKIXPublicKey : string -> result (PKIXKey EcPublicKey).
Variable VerifyASN1 : EcPublicKey -> string -> string -> bool.
Variable Sum256 : string -> string.

(** [parsePublicKey(der)]. *)
Definition parsePublicKey (der : string) : result EcPublicKey :=
  match ParsePKIXPublicKey der with
  | Err e => Err (errorf_w "failed to parse public key: " e)
  | Ok (PKIXKeyECDSA pk) => Ok pk
  | Ok PKIXKeyOther => Err (errors_New "public key is not an ECDSA key")
  end.

(** [VerifySignature(challenge, signature, publicKeyPEM)]. *)
Definition VerifySignature (challenge signature publicKeyPEM : string) : bool * option error :=
  match fst (pem_Decode publicKeyPEM) with
  | None => (false, Some err_invalid_public_key_format)
  | Some block =>
    match parsePublicKey (blk_Bytes block) with
    | Err e => (false, Some (errorf_w "failed to parse public key: " e))
    | Ok pubKey =>
      match StdEncoding_DecodeString signature with
      | None => (false, Some (errors_New "invalid signature format: illegal base64 data"))
      | Some sig => (VerifyASN1 pubKey (Sum256 challenge) sig, None)
      end
    end
  end.

End Signature.

Section Client.
(** The HTTP exchange of [AgentClient.RegisterAgent] after validation. *)
Variable post_register : AgentCard -> TokenString -> result string.

(** [AgentClient.RegisterAgent(card, orgToken)]. *)
Definition RegisterAgent (card : AgentCard) (orgToken : TokenString) : result string :=
  match AgentCard_Validate card with
  | Some e => Err (errorf_w "invalid agent card: " e)
  | None => post_register card orgToken
  end.

End Client.

(** [SignChallenge(challenge, privateKey)], with the randomness of
    [rand.Reader] as [nonce]. *)
Section Challenge.
Variable EcPrivateKey : Type.
(** [ecdsa.SignASN1(rand, priv, hash)] and [sha256.Sum256], left abstract. *)
Variable SignASN1 : EcPrivateKey -> Z -> string -> result string.
Variable Sum256 : string -> string.

Definition SignChallenge (challenge : string) (privateKey : EcPrivateKey) (nonce : Z) : result string :=
  let hash := Sum256 challenge in
  match SignASN1 privateKey nonce hash with
  | Err e => Err (errorf_w "failed to sign challenge: " e)
  | Ok signature => Ok (StdEncoding_EncodeToString signature)
  end.

End Challenge.

(* ------------------------------------------------------------------ *)
(** ** client.go *)

(** [fmt]'s [%d] of an integer: fuel [1 + log2 |z|] covers its digits. *)
Fixpoint decimal_digits (fuel : nat) (n : Z) (acc : string) : string :=
  match fuel with
  | O => acc
  | S f =>
    let acc' := String (ascii_of_nat (48 + Z.to_nat (n mod 10))) acc in
    if n <? 10 then acc' else decimal_digits f (n / 10) acc'
  end.

Definition format_int (z : Z) : string :=
  let fuel := S (Z.to_nat (Z.log2 (Z.abs z))) in
  if z <? 0 then String "-" (decimal_digits fuel (- z) "") else decimal_digits fuel z "".

(** [json.Marshal(card)] of an [*OrgCard]. *)
Definition marshal_OrgCard (oc : OrgCard) : json :=
  JObj [("org_id", marshal_string (org_OrgID oc)); ("name", marshal_string (org_Name oc));
        ("domain", marshal_string (org_Domain oc)); ("public_key", marshal_string (org_PublicKey oc));
        ("verified", JBool (org_Verified oc))].

(** [json.Marshal] of an [*AgentCard]. *)
Definition marshal_AgentCard (ac : AgentCard) : json :=
  JObj [("agent_id", marshal_string (card_AgentID ac)); ("org_id", marshal_string (card_OrgID ac));
        ("capabilities", marshal_string_slice (card_Capabilities ac));
        ("endpoints", marshal_string_slice (card_Endpoints ac));
        ("verified", JBool (card_Verified ac))].

(** The anonymous request structs of client.go, as [json.Marshal] writes them. *)
Definition RequestToken_payload (orgID challenge signature : string) : json :=
  JObj [("org_id", marshal_string orgID); ("challenge", marshal_string challenge);
        ("signature", marshal_string signature)].

Definition RegisterAgent_payload (card : AgentCard) (orgToken : string) : json :=
  JObj [("agent_card", marshal_AgentCard card); ("org_token", marshal_string orgToken)].

Definition JoinSession_payload (sessionID agentToken : string) : json :=
  JObj [("session_id", marshal_string sessionID); ("token", marshal_string agentToken)].

(** [json.NewDecoder(resp.Body).Decode(&result)] for a result struct with
    one string field [name], starting from its zero value. *)
Definition response_field (name : string) (k : string) (v : json) (s : string) : option string :=
  if field_matches k name then decode_string v s else Some s.

(** Keys made of ASCII characters only: on those, the decoder's Unicode case
    folding is the ASCII folding of [field_matches]. *)
Fixpoint ascii_only (s : string) : bool :=
  match s with
  | EmptyString => true
  | String c s' => Nat.ltb (code c) 128 && ascii_only s'
  end.

(** What [c.HTTP.Post] returns: the status code, and the first JSON value
    of the body as the decoder reads it (or the decoder's error). *)
Record HttpResponse := mkHttpResponse {
  StatusCode : Z;
  Body : result json
}.

(** A POST request: its URL and its JSON body. *)
Record Request := mkRequest {
  req_URL : string;
  req_Body : json
}.

Section HttpClient.
(** [c.HTTP.Post(url, "application/json", body)], left abstract. *)
Variable Post : string -> json -> result HttpResponse.
(** The error [json.Decoder.Decode] returns for a JSON value that does not
    fit the result struct. *)
Variable UnmarshalTypeError : error.

Definition decode_response (name : string) (body : result json) : result string :=
  match body with
  | Err e => Err (errorf_w "failed to decode response: " e)
  | Ok v =>
    match unmarshal_struct (response_field name) v "" with
    | Some s => Ok s
    | None => Err (errorf_w "failed to decode response: " UnmarshalTypeError)
    end
  end.

(** Each call returns the Go results and the requests it sent.  [json.Marshal]
    cannot fail on these payloads, so its error branches are not modelled. *)

(** [OrgClient.RegisterOrg(card)]. *)
Definition OrgClient_RegisterOrg (BaseURL : string) (card : OrgCard) : result string * list Request :=
  match OrgCard_Validate card with
  | Some e => (Err (errorf_w "invalid org card: " e), [])
  | None =>
    let url := BaseURL ++ "/orgs/register" in
    let payload := marshal_OrgCard card in
    (match Post url payload with
     | Err e => Err (errorf_w "failed to register org: " e)
     | Ok resp =>
       if negb (StatusCode resp =? 200) then
         Err (errors_New ("registration failed with status " ++ format_int (StatusCode resp)))
       else decode_response "challenge" (Body resp)
     end, [mkRequest url payload])
  end.

(** [OrgClient.RequestToken(orgID, challenge, signature)]. *)
Definition OrgClient_RequestToken (BaseURL orgID challenge signature : string)
    : result string * list Request :=
  let url := BaseURL ++ "/orgs/token" in
  let body := RequestToken_payload orgID challenge signature in
  (match Post url body with
   | Err e => Err (errorf_w "failed to request token: " e)
   | Ok resp =>
     if negb (StatusCode resp =? 200) then
       Err (errors_New ("token request failed with status " ++ format_int (StatusCode resp)))
     else decode_response "token" (Body resp)
   end, [mkRequest url body]).

(** [AgentClient.RegisterAgent(card, orgToken)]. *)
Definition AgentClient_RegisterAgent (BaseURL : string) (card : AgentCard) (orgToken : string)
    : result string * list Request :=
  match AgentCard_Validate card with
  | Some e => (Err (errorf_w "invalid agent card: " e), [])
  | None =>
    let url := BaseURL ++ "/agents/token" in
    let body := RegisterAgent_payload card orgToken in
    (match Post url body with
     | Err e => Err (errorf_w "failed to register agent: " e)
     | Ok resp =>
       if negb (StatusCode resp =? 200) then
         Err (errors_New ("registration failed with status " ++ format_int (StatusCode resp)))
       else decode_response "token" (Body resp)
     end, [mkRequest url body])
  end.

(** [AgentClient.JoinSession(sessionID, agentToken)]; [None] is a nil error. *)
Definition AgentClient_JoinSession (BaseURL sessionID agentToken : string)
    : option error * list Request :=
  let url := BaseURL ++ "/sessions/join" in
  let body := JoinSession_payload sessionID agentToken in
  (match Post url body with
   | Err e => Some (errorf_w "failed to join session: " e)
   | Ok resp =>
     if negb (StatusCode resp =? 200) then
       Some (errors_New ("join failed with status " ++ format_int (StatusCode resp)))
     else None
   end, [mkRequest url body]).

End HttpClient.

(* ------------------------------------------------------------------ *)
(** ** Concrete inputs *)

(** An org token for ["org-x"] issued at second 1000 (valid until 4600). *)
Definition example_org_token : TokenString :=
  fst (IssueOrgToken (E:=ToyECDSA) 1000 7 "org-x" true toy_key).

Definition example_org_claims : OrgTokenClaims :=
  mkOrgTokenClaims
    (mkRegisteredClaims TokenIssuer "" [OrgTokenAudience] (Some 4600) None (Some 1000) "")
    "org-x" true.

Definition example_card (orgID : string) : AgentCard :=
  mkAgentCard "agent-1" orgID ["search"] ["https://agent-1.example"] false.

(** A one-byte org id that is not UTF-8. *)
Definition invalid_utf8_org : string := String (ascii_of_nat 255) EmptyString.

(** Org-token claims with [exp] but no [iat]. *)
Definition no_iat_claims : json :=
  JObj [("iss", JStr TokenIssuer); ("aud", JArr [JStr OrgTokenAudience]);
        ("exp", JNum 4600); ("org_id", JStr "org-x"); ("verified", JBool true)].

Definition no_iat_token : TokenString :=
  fst (SignedString (E:=ToyECDSA) SigningMethodES256 no_iat_claims toy_key 0).

(** A PEM block of type PUBLIC KEY whose content is three zero bytes, not a
    DER SubjectPublicKeyInfo (which starts with a SEQUENCE tag, byte 0x30). *)
Definition non_der_public_key : string :=
  "-----BEGIN PUBLIC KEY-----" ++ nl ++ "AAAA" ++ nl ++ "-----END PUBLIC KEY-----" ++ nl.

Definition non_der_org_card : OrgCard :=
  mkOrgCard "org-x" "Org X" "org-x.example" non_der_public_key true.

(** An agent card that [AgentCard.Validate] rejects on every count it has. *)
Definition invalid_card : AgentCard := mkAgentCard "" "org-x" [] [] false.

(** What [ParseUnverified] makes of [example_org_token]. *)
Definition example_org_parsed : Token OrgTokenClaims :=
  mkToken [("alg", JStr "ES256"); ("typ", JStr "JWT")] SigningMethodES256 example_org_claims
    (header_of SigningMethodES256, marshal_OrgTokenClaims example_org_claims) (fst toy_key).

(** What [ParseUnverified] makes of [no_iat_token]. *)
Definition no_iat_parsed : Token OrgTokenClaims :=
  mkToken [("alg", JStr "ES256"); ("typ", JStr "JWT")] SigningMethodES256
    (mkOrgTokenClaims
       (mkRegisteredClaims TokenIssuer "" [OrgTokenAudience] (Some 4600) None None "")
       "org-x" true)
    (header_of SigningMethodES256, no_iat_claims) (fst toy_key).

Definition zero_byte : ascii := ascii_of_nat 0.

(** Three zero bytes, the content of [non_der_public_key], and its block. *)
Definition three_zero_bytes : string := String zero_byte (String zero_byte (String zero_byte EmptyString)).
Definition non_der_block : Block := mkBlock "PUBLIC KEY" [] three_zero_bytes.
(** A signature scheme on strings used to run [SignChallenge] and
    [VerifySignature]: the signature of a key is the key itself. *)
Definition toy_SignASN1 (k : string) (nonce : Z) (hash : string) : result string := Ok k.
Definition toy_VerifyASN1 (pk hash sig : string) : bool := String.eqb sig pk.
Definition toy_ParsePKIX (der : string) : result (PKIXKey string) := Ok (PKIXKeyECDSA der).
Definition toy_Sum256 (s : string) : string := s.
(** An error of [x509.ParsePKIXPublicKey]. *)
Definition pkix_error : error := errors_New "x509: malformed public key".
(** A server that answers every POST with [status] and [body]. *)
Definition respond (status : Z) (body : json) : string -> json -> result HttpResponse :=
  fun _ _ => Ok (mkHttpResponse status (Ok body)).
Definition base_url : string := "https://atoa.example".

(* ================================================================== *)
(** * Lemmas *)

Lemma unmarshal_issued_org_claims (now : Z) (orgID : string) (verified : bool) :
  claims_unmarshal
    (marshal_OrgTokenClaims
       (mkOrgTokenClaims
          (mkRegisteredClaims TokenIssuer "" [OrgTokenAudience] (Some (now + DefaultTokenExpiry)) None (Some now) "")
          orgID verified))
    zero_OrgTokenClaims
  = Some (mkOrgTokenClaims
            (mkRegisteredClaims TokenIssuer "" [OrgTokenAudience] (Some (now + DefaultTokenExpiry)) None (Some now) "")
            (coerce_utf8 orgID) verified).
Proof. reflexivity. Qed.

Lemma string_elems_marshal (l : list string) :
  string_elems (map marshal_string l) = Some (map coerce_utf8 l).
Proof. induction l as [|s l IH]; simpl; [reflexivity|]. rewrite IH. reflexivity. Qed.

Lemma decode_marshal_string_slice (l : list string) :
  decode_string_slice (marshal_string_slice l) = Some (map coerce_utf8 l).
Proof.
  destruct l as [|s l]; [reflexivity|].
  unfold marshal_string_slice, decode_string_slice.
  rewrite (string_elems_marshal (s :: l)). reflexivity.
Qed.

Lemma unmarshal_issued_agent_claims (now : Z) (agentID orgID : string) (verified : bool)
    (caps : list string) :
  claims_unmarshal
    (marshal_AgentTokenClaims
       (mkAgentTokenClaims
          (mkRegisteredClaims TokenIssuer "" [AgentTokenAudience] (Some (now + DefaultTokenExpiry)) None (Some now) "")
          agentID orgID verified caps))
    zero_AgentTokenClaims
  = Some (mkAgentTokenClaims
            (mkRegisteredClaims TokenIssuer "" [AgentTokenAudience] (Some (now + DefaultTokenExpiry)) None (Some now) "")
            (coerce_utf8 agentID) (coerce_utf8 orgID) verified (map coerce_utf8 caps)).
Proof.
  simpl. rewrite decode_marshal_string_slice. reflexivity.
Qed.

Section Signed.
Context {E : ECDSA}.

Lemma SignedString_ES256_ok (claims : json) (k : PrivateKey) (nonce : Z) :
  BitSize k = 256 ->
  SignedString SigningMethodES256 claims k nonce
  = (Compact (header_of SigningMethodES256) claims
       (ecdsa_sign 256 k nonce (header_of SigningMethodES256, claims)), None).
Proof.
  intros Hb. unfold SignedString, Sign, SigningMethodES256.
  rewrite Hb, Z.eqb_refl. reflexivity.
Qed.

Lemma SignedString_ES256_inv (claims : json) (k : PrivateKey) (nonce : Z) (tok : TokenString) :
  SignedString SigningMethodES256 claims k nonce = (tok, None) ->
  BitSize k = 256 /\
  tok = Compact (header_of SigningMethodES256) claims
          (ecdsa_sign 256 k nonce (header_of SigningMethodES256, claims)).
Proof.
  unfold SignedString, Sign, SigningMethodES256.
  destruct (BitSize k =? 256) eqn:Hb; intros Heq; inversion Heq.
  split; [apply Z.eqb_eq; exact Hb | reflexivity].
Qed.

Lemma SignedString_ES256_err (claims : json) (k : PrivateKey) (nonce : Z) (tok : TokenString) (e : error) :
  SignedString SigningMethodES256 claims k nonce = (tok, Some e) ->
  tok = empty_token /\ e = sentinel ErrInvalidKey /\ BitSize k <> 256.
Proof.
  unfold SignedString, Sign, SigningMethodES256.
  destruct (BitSize k =? 256) eqn:Hb; intros Heq; inversion Heq.
  split; [reflexivity | split; [reflexivity | apply Z.eqb_neq; exact Hb]].
Qed.

Lemma ParseTokenWithPublicKey_signed {C} `{Claims C} (claims0 : C) (p : json) (k : PrivateKey)
    (nonce now : Z) (c : C) :
  BitSize k = 256 ->
  claims_unmarshal p claims0 = Some c ->
  Validator_Validate NewParser_exp_iat c now = None ->
  ParseTokenWithPublicKey
    (Compact (header_of SigningMethodES256) p
       (ecdsa_sign 256 k nonce (header_of SigningMethodES256, p)))
    (Public k) claims0 now = Ok c.
Proof.
  intros Hb Hu Hv.
  unfold ParseTokenWithPublicKey, ParseWithClaims, ParseUnverified.
  cbn [header_map header_of].
  rewrite Hu. cbn. rewrite (ecdsa_verify_sign 256 k nonce _ Hb).
  rewrite Hv. reflexivity.
Qed.

End Signed.

Lemma Validate_window {C} `{Claims C} (c : C) (now t : Z) :
  GetExpirationTime c = Ok (Some (now + DefaultTokenExpiry)) ->
  GetNotBefore c = Ok None ->
  GetIssuedAt c = Ok (Some now) ->
  now <= t < now + DefaultTokenExpiry ->
  Validator_Validate NewParser_exp_iat c t = None.
Proof.
  intros He Hn Hi Ht.
  unfold Validator_Validate, verifyExpiresAt, verifyNotBefore, verifyIssuedAt.
  rewrite He, Hn, Hi. cbn [requireExp verifyIat NewParser_exp_iat].
  rewrite (proj2 (Z.ltb_lt t (now + DefaultTokenExpiry))) by lia.
  rewrite (proj2 (Z.ltb_ge t now)) by lia.
  reflexivity.
Qed.

Lemma coerce_utf8_valid_aux (n : nat) (s : string) :
  (String.length s <= n)%nat -> ValidString s = true -> coerce_utf8 s = s.
Proof.
  revert s; induction n as [|n IH]; intros s Hl Hv.
  - destruct s; [reflexivity | simpl in Hl; lia].
  - destruct s as [|a s1]; [reflexivity|].
    simpl in Hl, Hv |- *.
    destruct (Nat.ltb (code a) 128).
    { rewrite (IH s1) by (lia || exact Hv). reflexivity. }
    destruct s1 as [|b s2]; [discriminate|].
    simpl in Hl.
    destruct (rune2 a b).
    { rewrite (IH s2) by (lia || exact Hv). reflexivity. }
    destruct s2 as [|c s3]; [discriminate|].
    simpl in Hl.
    destruct (rune3 a b c).
    { rewrite (IH s3) by (lia || exact Hv). reflexivity. }
    destruct s3 as [|d s4]; [discriminate|].
    simpl in Hl.
    destruct (rune4 a b c d); [|discriminate].
    rewrite (IH s4) by (lia || exact Hv). reflexivity.
Qed.

(** Valid UTF-8 goes through the encoder unchanged. *)
Lemma coerce_utf8_valid (s : string) : ValidString s = true -> coerce_utf8 s = s.
Proof. apply (coerce_utf8_valid_aux (String.length s)); lia. Qed.

Lemma ValidString_RuneError (x : string) : ValidString (RuneError ++ x) = ValidString x.
Proof. reflexivity. Qed.

Lemma ValidString_coerce_utf8_aux (n : nat) (s : string) :
  (String.length s <= n)%nat -> ValidString (coerce_utf8 s) = true.
Proof.
  revert s; induction n as [|n IH]; intros s Hl.
  - destruct s; [reflexivity | simpl in Hl; lia].
  - destruct s as [|a s1]; [reflexivity|].
    cbn [String.length] in Hl. cbn [coerce_utf8].
    destruct (Nat.ltb (code a) 128) eqn:H0.
    { cbn [ValidString]. rewrite H0. apply IH. lia. }
    destruct s1 as [|b s2].
    { rewrite ValidString_RuneError. reflexivity. }
    cbn [String.length] in Hl.
    destruct (rune2 a b) eqn:H2.
    { cbn [ValidString]. rewrite H0, H2. apply IH. lia. }
    destruct s2 as [|c s3].
    { rewrite ValidString_RuneError. apply IH. cbn [String.length]. lia. }
    cbn [String.length] in Hl.
    destruct (rune3 a b c) eqn:H3.
    { cbn [ValidString]. rewrite H0, H2, H3. apply IH. lia. }
    destruct s3 as [|d s4].
    { rewrite ValidString_RuneError. apply IH. cbn [String.length]. lia. }
    cbn [String.length] in Hl.
    destruct (rune4 a b c d) eqn:H4.
    { cbn [ValidString]. rewrite H0, H2, H3, H4. apply IH. lia. }
    rewrite ValidString_RuneError. apply IH. cbn [String.length]. lia.
Qed.

(** What the encoder writes for a string is valid UTF-8. *)
Lemma ValidString_coerce_utf8 (s : string) : ValidString (coerce_utf8 s) = true.
Proof. apply (ValidString_coerce_utf8_aux (String.length s)); lia. Qed.

(** A string comes out of the encoder unchanged exactly when it is valid
    UTF-8. *)
Lemma coerce_utf8_fixed_iff (s : string) : coerce_utf8 s = s <-> ValidString s = true.
Proof.
  split; [intros H; rewrite <- H; apply ValidString_coerce_utf8 | apply coerce_utf8_valid].
Qed.

Lemma ParseWithClaims_keyless {E : ECDSA} {C} `{Claims C} (p : Parser) (tokenString : TokenString)
    (claims : C) (now : Z) :
  is_err (ParseWithClaims p tokenString claims (ecdsa_keyfunc KeyNil) now) = true
  /\ (forall t, ParseUnverified tokenString claims = Ok t -> is_ecdsa (tok_Method t) = true ->
        err_kind (ParseWithClaims p tokenString claims (ecdsa_keyfunc KeyNil) now) ErrTokenSignatureInvalid = true
        /\ err_kind (ParseWithClaims p tokenString claims (ecdsa_keyfunc KeyNil) now) ErrInvalidKeyType = true).
Proof.
  unfold ParseWithClaims.
  destruct (ParseUnverified tokenString claims) as [t|e]; [|split; [reflexivity | discriminate]].
  unfold ecdsa_keyfunc.
  destruct (tok_Method t) as [n h ks bits|n] eqn:Hm.
  - split; [reflexivity|]. intros t' Ht' _. split; reflexivity.
  - split; [reflexivity|]. intros t' Ht' He. injection Ht' as <-. rewrite Hm in He. discriminate.
Qed.

(** [base64.StdEncoding]: decoding undoes encoding. *)

Lemma enc_table (n : nat) : (n < 64)%nat ->
  b64_value (match String.get n encodeStd with Some c => c | None => "A"%char end) = Some (Z.of_nat n).
Proof.
  intros Hn.
  do 64 (destruct n as [|n]; [reflexivity|]). lia.
Qed.

Lemma land63 (v : Z) : Z.land v 63 = v mod 64.
Proof. change 63 with (Z.ones 6). rewrite Z.land_ones by lia. reflexivity. Qed.

Lemma b64_value_enc_char (v : Z) : b64_value (enc_char v) = Some (v mod 64).
Proof.
  unfold enc_char. rewrite land63.
  pose proof (Z.mod_pos_bound v 64 ltac:(lia)).
  rewrite enc_table by lia. rewrite Z2Nat.id by lia. reflexivity.
Qed.

Lemma b64_value_not_special (c : ascii) (v : Z) :
  b64_value c = Some v -> is_char 61 c = false /\ is_char 10 c = false /\ is_char 13 c = false.
Proof.
  intros H. unfold is_char.
  destruct (Nat.eqb_spec (code c) 61) as [E|_];
    [unfold b64_value, in_range, is_char in H; rewrite E in H; discriminate H|].
  destruct (Nat.eqb_spec (code c) 10) as [E|_];
    [unfold b64_value, in_range, is_char in H; rewrite E in H; discriminate H|].
  destruct (Nat.eqb_spec (code c) 13) as [E|_];
    [unfold b64_value, in_range, is_char in H; rewrite E in H; discriminate H|].
  auto.
Qed.

Lemma enc_char_not_special (v : Z) :
  is_char 61 (enc_char v) = false /\ is_char 10 (enc_char v) = false /\ is_char 13 (enc_char v) = false.
Proof. exact (b64_value_not_special _ _ (b64_value_enc_char v)). Qed.

Lemma byte_value_bound (a : ascii) : 0 <= byte_value a < 256.
Proof. unfold byte_value, code. pose proof (nat_ascii_bounded a). lia. Qed.

Lemma byte_of_Z_eq (z : Z) (a : ascii) : z mod 256 = byte_value a -> byte_of_Z z = a.
Proof.
  intros H. unfold byte_of_Z. rewrite H. unfold byte_value, code.
  rewrite Nat2Z.id. apply ascii_nat_embedding.
Qed.

Lemma lor_shiftl_small (X C : Z) (k : Z) :
  0 <= k -> 0 <= C < 2 ^ k -> Z.lor (Z.shiftl X k) C = X * 2 ^ k + C.
Proof.
  intros Hk HC. rewrite Z.shiftl_mul_pow2 by lia.
  assert (Hl : Z.land (X * 2 ^ k) C = 0).
  { assert (HC' : C = Z.land C (Z.ones k)) by (rewrite Z.land_ones by lia; rewrite Z.mod_small by lia; reflexivity).
    rewrite HC', (Z.land_comm C), Z.land_assoc, (Z.land_ones (X * 2 ^ k)) by lia.
    rewrite Z.mod_mul by (apply Z.pow_nonzero; lia). apply Z.land_0_l. }
  rewrite <- Z.lxor_lor by exact Hl. rewrite <- Z.add_nocarry_lxor by exact Hl. reflexivity.
Qed.

Lemma val3 (A B C : Z) : 0 <= A < 256 -> 0 <= B < 256 -> 0 <= C < 256 ->
  Z.lor (Z.lor (Z.shiftl A 16) (Z.shiftl B 8)) C = A * 65536 + B * 256 + C.
Proof.
  intros HA HB HC.
  change 16 with (8 + 8). rewrite <- (Z.shiftl_shiftl A 8 8) by lia.
  rewrite <- Z.shiftl_lor. rewrite (lor_shiftl_small A B 8) by (cbn; lia).
  rewrite lor_shiftl_small by (cbn; lia). cbn. lia.
Qed.

Lemma val2 (A B : Z) : 0 <= A < 256 -> 0 <= B < 256 ->
  Z.lor (Z.shiftl A 16) (Z.shiftl B 8) = A * 65536 + B * 256.
Proof.
  intros HA HB.
  change 16 with (8 + 8). rewrite <- (Z.shiftl_shiftl A 8 8) by lia.
  rewrite <- Z.shiftl_lor. rewrite (lor_shiftl_small A B 8) by (cbn; lia).
  rewrite Z.shiftl_mul_pow2 by lia. cbn. lia.
Qed.

Lemma digits64 (v : Z) : 0 <= v < 2 ^ 24 ->
  (v / 2 ^ 18) mod 64 * 262144 + (v / 2 ^ 12) mod 64 * 4096 + (v / 2 ^ 6) mod 64 * 64 + v mod 64 = v.
Proof.
  intros Hv. cbn in Hv |- *.
  pose proof (Z.div_mod v 64 ltac:(lia)).
  pose proof (Z.div_mod (v / 64) 64 ltac:(lia)).
  pose proof (Z.div_mod (v / 4096) 64 ltac:(lia)).
  rewrite Z.div_div in H0 by lia. rewrite Z.div_div in H1 by lia.
  change (64 * 64) with 4096 in H0. change (4096 * 64) with 262144 in H1.
  assert (v / 262144 < 64) by (apply Z.div_lt_upper_bound; lia).
  assert (0 <= v / 262144) by (apply Z.div_pos; lia).
  rewrite (Z.mod_small (v / 262144) 64) by lia.
  lia.
Qed.

Lemma decode_quantum3 (a b c : ascii) (rest r : string) :
  decode_quanta rest = Some r ->
  decode_quanta
    (String (enc_char (Z.shiftr (Z.lor (Z.lor (Z.shiftl (byte_value a) 16) (Z.shiftl (byte_value b) 8)) (byte_value c)) 18))
    (String (enc_char (Z.shiftr (Z.lor (Z.lor (Z.shiftl (byte_value a) 16) (Z.shiftl (byte_value b) 8)) (byte_value c)) 12))
    (String (enc_char (Z.shiftr (Z.lor (Z.lor (Z.shiftl (byte_value a) 16) (Z.shiftl (byte_value b) 8)) (byte_value c)) 6))
    (String (enc_char (Z.lor (Z.lor (Z.shiftl (byte_value a) 16) (Z.shiftl (byte_value b) 8)) (byte_value c))) rest))))
  = Some (String a (String b (String c r))).
Proof.
  intros Hr.
  pose proof (byte_value_bound a) as HA. pose proof (byte_value_bound b) as HB.
  pose proof (byte_value_bound c) as HC.
  rewrite (val3 _ _ _ HA HB HC).
  set (V := byte_value a * 65536 + byte_value b * 256 + byte_value c).
  cbn [decode_quanta].
  rewrite !b64_value_enc_char.
  rewrite (proj1 (enc_char_not_special (Z.shiftr V 6))).
  rewrite (proj1 (enc_char_not_special V)).
  rewrite Hr. cbn [option_map].
  rewrite !Z.shiftr_div_pow2 by lia.
  assert (HV : 0 <= V < 2 ^ 24) by (unfold V; change (2 ^ 24) with 16777216; lia).
  rewrite (digits64 V HV).
  assert (E1 : V / 65536 = byte_value a).
  { symmetry. apply Z.div_unique with (r := byte_value b * 256 + byte_value c); [left; lia | unfold V; lia]. }
  assert (E2 : V / 256 = byte_value a * 256 + byte_value b).
  { symmetry. apply Z.div_unique with (r := byte_value c); [left; lia | unfold V; lia]. }
  rewrite E1, E2.
  rewrite (byte_of_Z_eq (byte_value a) a) by (apply Z.mod_small; lia).
  rewrite (byte_of_Z_eq (byte_value a * 256 + byte_value b) b)
    by (symmetry; apply Z.mod_unique with (q := byte_value a); [left; lia | lia]).
  rewrite (byte_of_Z_eq V c)
    by (symmetry; apply Z.mod_unique with (q := byte_value a * 256 + byte_value b); [left; lia | unfold V; lia]).
  reflexivity.
Qed.

Lemma decode_quantum2 (a b : ascii) :
  decode_quanta
    (String (enc_char (Z.shiftr (Z.lor (Z.shiftl (byte_value a) 16) (Z.shiftl (byte_value b) 8)) 18))
    (String (enc_char (Z.shiftr (Z.lor (Z.shiftl (byte_value a) 16) (Z.shiftl (byte_value b) 8)) 12))
    (String (enc_char (Z.shiftr (Z.lor (Z.shiftl (byte_value a) 16) (Z.shiftl (byte_value b) 8)) 6))
    (String padChar EmptyString))))
  = Some (String a (String b EmptyString)).
Proof.
  pose proof (byte_value_bound a) as HA. pose proof (byte_value_bound b) as HB.
  rewrite (val2 _ _ HA HB).
  set (V := byte_value a * 65536 + byte_value b * 256).
  cbn [decode_quanta].
  rewrite !b64_value_enc_char.
  rewrite (proj1 (enc_char_not_special (Z.shiftr V 6))).
  cbn [is_char padChar]. change (Nat.eqb (code "="%char) 61) with true. cbv iota beta.
  rewrite !Z.shiftr_div_pow2 by lia.
  assert (HV : 0 <= V < 2 ^ 24) by (unfold V; change (2 ^ 24) with 16777216; lia).
  pose proof (digits64 V HV) as HD.
  assert (Hm : V mod 64 = 0) by (unfold V; symmetry; apply Z.mod_unique with (q := byte_value a * 1024 + byte_value b * 4); [left; lia | lia]).
  rewrite Hm, Z.add_0_r in HD. rewrite HD.
  assert (E1 : V / 65536 = byte_value a).
  { symmetry. apply Z.div_unique with (r := byte_value b * 256); [left; lia | unfold V; lia]. }
  assert (E2 : V / 256 = byte_value a * 256 + byte_value b).
  { symmetry. apply Z.div_unique with (r := 0); [left; lia | unfold V; lia]. }
  rewrite E1, E2.
  rewrite (byte_of_Z_eq (byte_value a) a) by (apply Z.mod_small; lia).
  rewrite (byte_of_Z_eq (byte_value a * 256 + byte_value b) b)
    by (symmetry; apply Z.mod_unique with (q := byte_value a); [left; lia | lia]).
  reflexivity.
Qed.

Lemma decode_quantum1 (a : ascii) :
  decode_quanta
    (String (enc_char (Z.shiftr (Z.shiftl (byte_value a) 16) 18))
    (String (enc_char (Z.shiftr (Z.shiftl (byte_value a) 16) 12))
    (String padChar (String padChar EmptyString))))
  = Some (String a EmptyString).
Proof.
  pose proof (byte_value_bound a) as HA.
  cbn [decode_quanta].
  rewrite !b64_value_enc_char.
  cbn [is_char padChar]. change (Nat.eqb (code "="%char) 61) with true. cbv iota beta.
  rewrite !Z.shiftr_div_pow2, Z.shiftl_mul_pow2 by lia.
  change (2 ^ 16) with 65536. change (2 ^ 18) with 262144. change (2 ^ 12) with 4096.
  pose proof (Z.div_mod (byte_value a) 4 ltac:(lia)) as Hq.
  pose proof (Z.mod_pos_bound (byte_value a) 4 ltac:(lia)) as Hr.
  assert (E1 : byte_value a * 65536 / 262144 = byte_value a / 4).
  { symmetry. apply Z.div_unique with (r := byte_value a mod 4 * 65536); [left; lia | lia]. }
  assert (E2 : byte_value a * 65536 / 4096 = byte_value a * 16).
  { symmetry. apply Z.div_unique with (r := 0); [left; lia | lia]. }
  assert (E3 : (byte_value a * 16) mod 64 = byte_value a mod 4 * 16).
  { symmetry. apply Z.mod_unique with (q := byte_value a / 4); [left; lia | lia]. }
  rewrite E1, E2, E3, Z.div_mul by lia.
  rewrite (Z.mod_small (byte_value a / 4) 64) by (split; [apply Z.div_pos | apply Z.div_lt_upper_bound]; lia).
  rewrite (byte_of_Z_eq _ a) by (rewrite Z.mod_small; lia).
  reflexivity.
Qed.

Lemma strip_newlines_encode (s : string) : strip_newlines (encode_quanta s) = encode_quanta s.
Proof.
  induction s as [s IH] using (well_founded_induction (Wf_nat.well_founded_ltof _ String.length)).
  destruct s as [|a [|b [|c rest]]]; cbn [encode_quanta].
  - reflexivity.
  - cbn [strip_newlines].
    repeat match goal with
           | |- context [is_char 10 (enc_char ?v)] => rewrite (proj1 (proj2 (enc_char_not_special v)))
           | |- context [is_char 13 (enc_char ?v)] => rewrite (proj2 (proj2 (enc_char_not_special v)))
           end.
    reflexivity.
  - cbn [strip_newlines].
    repeat match goal with
           | |- context [is_char 10 (enc_char ?v)] => rewrite (proj1 (proj2 (enc_char_not_special v)))
           | |- context [is_char 13 (enc_char ?v)] => rewrite (proj2 (proj2 (enc_char_not_special v)))
           end.
    reflexivity.
  - cbn [strip_newlines].
    repeat match goal with
           | |- context [is_char 10 (enc_char ?v)] => rewrite (proj1 (proj2 (enc_char_not_special v)))
           | |- context [is_char 13 (enc_char ?v)] => rewrite (proj2 (proj2 (enc_char_not_special v)))
           end.
    cbn [orb]. rewrite IH; [reflexivity|]. unfold Wf_nat.ltof. cbn [String.length]. lia.
Qed.

Lemma decode_encode_quanta (s : string) : decode_quanta (encode_quanta s) = Some s.
Proof.
  induction s as [s IH] using (well_founded_induction (Wf_nat.well_founded_ltof _ String.length)).
  destruct s as [|a [|b [|c rest]]]; cbn [encode_quanta].
  - reflexivity.
  - apply decode_quantum1.
  - apply decode_quantum2.
  - apply decode_quantum3. apply IH. unfold Wf_nat.ltof. cbn [String.length]. lia.
Qed.

Lemma StdEncoding_decode_encode (s : string) :
  StdEncoding_DecodeString (StdEncoding_EncodeToString s) = Some s.
Proof.
  unfold StdEncoding_DecodeString, StdEncoding_EncodeToString.
  rewrite strip_newlines_encode. apply decode_encode_quanta.
Qed.

(** The validator of [ParseTokenWithPublicKey] accepts exactly the claims
    with an exp after [now] and no nbf or iat after it. *)

Lemma Validate_exp_iat_None_iff {C} `{Claims C} (c : C) (now : Z) (exp nbf iat : option Z) :
  GetExpirationTime c = Ok exp -> GetNotBefore c = Ok nbf -> GetIssuedAt c = Ok iat ->
  Validator_Validate NewParser_exp_iat c now = None
  <-> (exists e, exp = Some e /\ now < e)
      /\ (forall x, nbf = Some x -> x <= now)
      /\ (forall x, iat = Some x -> x <= now).
Proof.
  intros He Hn Hi.
  unfold Validator_Validate, verifyExpiresAt, verifyNotBefore, verifyIssuedAt.
  rewrite He, Hn, Hi. cbn [requireExp verifyIat NewParser_exp_iat errorIfRequired].
  destruct exp as [e|]; [destruct (now <? e) eqn:H1|];
    (destruct nbf as [x|]; [destruct (now <? x) eqn:H2|]);
    (destruct iat as [y|]; [destruct (now <? y) eqn:H3|]);
    cbn;
    repeat match goal with
           | H : (_ <? _) = true |- _ => apply Z.ltb_lt in H
           | H : (_ <? _) = false |- _ => apply Z.ltb_ge in H
           end;
    split; intros HH;
    first
      [ reflexivity
      | discriminate HH
      | (lazymatch type of HH with (exists _, _) /\ _ => idtac end;
         destruct HH as [[e' [He' Hl]] [Hn' Hi']];
         first [ discriminate He'
               | injection He' as <-;
                 first [ lia
                       | specialize (Hn' _ eq_refl); lia
                       | specialize (Hi' _ eq_refl); lia ] ])
      | (split; [eexists; split; [reflexivity | lia] |
                 split; intros z Hz; first [discriminate Hz | injection Hz as <-; lia]]) ].
Qed.

Lemma Validate_expired_error {C} `{Claims C} (c : C) (now exp : Z) (nbf iat : option Z) :
  GetExpirationTime c = Ok (Some exp) -> exp <= now ->
  GetNotBefore c = Ok nbf -> GetIssuedAt c = Ok iat ->
  exists e, Validator_Validate NewParser_exp_iat c now = Some e
    /\ errors_Is e ErrTokenExpired = true
    /\ errors_Is e ErrTokenSignatureInvalid = false
    /\ errors_Is e ErrTokenInvalidClaims = false.
Proof.
  intros He Hle Hn Hi.
  unfold Validator_Validate, verifyExpiresAt, verifyNotBefore, verifyIssuedAt.
  rewrite He, Hn, Hi. cbn [requireExp verifyIat NewParser_exp_iat].
  rewrite (proj2 (Z.ltb_ge now exp) Hle).
  destruct nbf as [x|]; [destruct (now <? x)|]; destruct iat as [y|]; try destruct (now <? y);
    eexists; (split; [reflexivity|]); repeat split.
Qed.

Lemma ParseUnverified_error_kinds {C} `{Claims C} (tokenString : TokenString) (claims : C) (e : error) :
  ParseUnverified tokenString claims = Err e ->
  err_is e = [ErrTokenMalformed] \/ err_is e = [ErrTokenUnverifiable].
Proof.
  unfold ParseUnverified.
  destruct tokenString as [h p s|raw]; [|intros Hx; injection Hx as <-; left; reflexivity].
  destruct (header_map h) as [hkv|]; [|intros Hx; injection Hx as <-; left; reflexivity].
  destruct (claims_unmarshal p claims) as [c|]; [|intros Hx; injection Hx as <-; left; reflexivity].
  destruct (map_lookup "alg" hkv) as [[| | | a | |]|];
    try (intros Hx; injection Hx as <-; right; reflexivity).
  destruct (GetSigningMethod a); [discriminate|].
  intros Hx; injection Hx as <-; right; reflexivity.
Qed.

Lemma ParseTokenWithPublicKey_verify_false {E : ECDSA} {C} `{Claims C}
    (tokenString : TokenString) (publicKey : PublicKey) (claims : C) (t : Token C) (now : Z)
    (name : string) (hash keySize bits : Z) :
  ParseUnverified tokenString claims = Ok t ->
  tok_Method t = SigningMethodECDSA name hash keySize bits ->
  ecdsa_verify bits publicKey (tok_SigningInput t) (tok_Signature t) = false ->
  ParseTokenWithPublicKey tokenString publicKey claims now
  = Err (mkError "token signature is invalid: crypto/ecdsa: verification error"
                 [ErrTokenSignatureInvalid; ErrECDSAVerification]).
Proof.
  intros Hu Hm Hv.
  unfold ParseTokenWithPublicKey, ParseWithClaims. rewrite Hu.
  unfold ecdsa_keyfunc. rewrite Hm. cbn [is_ecdsa Verify]. rewrite Hv. reflexivity.
Qed.

(** The claims decoded from an agent token's payload into [OrgTokenClaims]:
    the agent fields are unknown keys there and are skipped. *)

Lemma unmarshal_agent_claims_as_org (now : Z) (agentID orgID : string) (verified : bool)
    (caps : list string) :
  claims_unmarshal
    (marshal_AgentTokenClaims
       (mkAgentTokenClaims
          (mkRegisteredClaims TokenIssuer "" [AgentTokenAudience] (Some (now + DefaultTokenExpiry)) None (Some now) "")
          agentID orgID verified caps))
    zero_OrgTokenClaims
  = Some (mkOrgTokenClaims
            (mkRegisteredClaims TokenIssuer "" [AgentTokenAudience] (Some (now + DefaultTokenExpiry)) None (Some now) "")
            (coerce_utf8 orgID) verified).
Proof. reflexivity. Qed.

Lemma ParseUnverified_signed {E : ECDSA} {C} `{Claims C} (claims0 c : C) (p : json) (sig : string) :
  claims_unmarshal p claims0 = Some c ->
  ParseUnverified (Compact (header_of SigningMethodES256) p sig) claims0
  = Ok (mkToken [("alg", JStr "ES256"); ("typ", JStr "JWT")] SigningMethodES256 c
          (header_of SigningMethodES256, p) sig).
Proof. intros Hu. unfold ParseUnverified. cbn [header_map header_of]. rewrite Hu. reflexivity. Qed.

Lemma decode_fields_no_match (name : string) (kv : list (string * json)) (s : string) :
  forallb (fun k => negb (field_matches k name)) (map fst kv) = true ->
  decode_fields (response_field name) kv s = Some s.
Proof.
  induction kv as [|[k v] kv IH]; cbn [decode_fields map fst forallb]; [reflexivity|].
  intros H. apply andb_prop in H. destruct H as [Hk H].
  unfold response_field. destruct (field_matches k name); [discriminate Hk|].
  apply IH, H.
Qed.

Lemma toy_SignASN1_VerifyASN1 (k : string) (n : Z) (h sig : string) :
  toy_SignASN1 k n h = Ok sig -> toy_VerifyASN1 k h sig = true.
Proof. intros Hs. injection Hs as <-. apply String.eqb_refl. Qed.

(* ================================================================== *)
(** * Claims *)

(** C1: if the org token verifies under the issuer's key but carries an
    org_id other than the card's OrgID, [IssueAgentToken] returns the
    org_id-mismatch error and no token. That error is returned in no other
    case: a verification failure is reported as "invalid org token: ...", a
    signing failure as jwt's invalid-key error. *)
Theorem IssueAgentToken_org_id_mismatch {E : ECDSA} (vnow now nonce : Z) (card : AgentCard)
    (orgToken : TokenString) (privateKey : PrivateKey) (orgClaims : OrgTokenClaims) :
  ParseTokenWithPublicKey orgToken (Public privateKey) zero_OrgTokenClaims vnow = Ok orgClaims ->
  oc_OrgID orgClaims <> card_OrgID card ->
  IssueAgentToken vnow now nonce card orgToken privateKey = (empty_token, Some err_org_id_mismatch)
  /\ (forall vnow' now' nonce' card' orgToken' privateKey' tok,
        IssueAgentToken vnow' now' nonce' card' orgToken' privateKey' = (tok, Some err_org_id_mismatch) ->
        tok = empty_token
        /\ exists oc, ParseTokenWithPublicKey orgToken' (Public privateKey') zero_OrgTokenClaims vnow' = Ok oc
                      /\ oc_OrgID oc <> card_OrgID card').
Proof.
  intros Hp Hne. split.
  - unfold IssueAgentToken. rewrite Hp.
    rewrite (proj2 (String.eqb_neq _ _) Hne). reflexivity.
  - intros vnow' now' nonce' card' orgToken' k' tok Hi.
    unfold IssueAgentToken in Hi.
    destruct (ParseTokenWithPublicKey orgToken' (Public k') zero_OrgTokenClaims vnow') as [oc|e] eqn:Hp'.
    + destruct (String.eqb (oc_OrgID oc) (card_OrgID card')) eqn:Heq; cbn [negb] in Hi.
      * apply SignedString_ES256_err in Hi. destruct Hi as [_ [Hs _]]. discriminate Hs.
      * injection Hi as <-. split; [reflexivity|].
        exists oc. split; [reflexivity | apply String.eqb_neq; exact Heq].
    + unfold errorf_w, err_org_id_mismatch, errors_New in Hi. discriminate Hi.
Qed.

(** A verified org token for org-x presented with a card for org-y. *)
Lemma IssueAgentToken_org_id_mismatch_witness :
  IssueAgentToken (E:=ToyECDSA) 1500 1500 3 (example_card "org-y") example_org_token toy_key
  = (empty_token, Some err_org_id_mismatch).
Proof.
  refine (proj1 (IssueAgentToken_org_id_mismatch 1500 1500 3 (example_card "org-y")
                   example_org_token toy_key example_org_claims _ _)).
  - vm_compute. reflexivity.
  - discriminate.
Defined.

(** C2: when the org token verifies and [IssueAgentToken] succeeds, the
    agent token verifies under the same key during its hour of validity, and
    its verified claim is the org token's, whatever the card says. *)
Theorem IssueAgentToken_inherits_verified {E : ECDSA} (vnow now nonce : Z) (card : AgentCard)
    (orgToken : TokenString) (privateKey : PrivateKey) (orgClaims : OrgTokenClaims)
    (agentToken : TokenString) (t : Z) :
  ParseTokenWithPublicKey orgToken (Public privateKey) zero_OrgTokenClaims vnow = Ok orgClaims ->
  IssueAgentToken vnow now nonce card orgToken privateKey = (agentToken, None) ->
  now <= t < now + DefaultTokenExpiry ->
  exists agentClaims,
    ParseTokenWithPublicKey agentToken (Public privateKey) zero_AgentTokenClaims t = Ok agentClaims
    /\ ac_Verified agentClaims = oc_Verified orgClaims.
Proof.
  intros Hp Hi Ht.
  unfold IssueAgentToken in Hi. rewrite Hp in Hi.
  destruct (negb (String.eqb (oc_OrgID orgClaims) (card_OrgID card))); [discriminate Hi|].
  apply SignedString_ES256_inv in Hi. destruct Hi as [Hb ->].
  eexists. split.
  - apply ParseTokenWithPublicKey_signed; [exact Hb | apply unmarshal_issued_agent_claims |].
    apply (Validate_window _ now); [reflexivity | reflexivity | reflexivity | exact Ht].
  - reflexivity.
Qed.

Lemma IssueAgentToken_inherits_verified_witness :
  exists agentClaims,
    ParseTokenWithPublicKey (E:=ToyECDSA)
      (fst (IssueAgentToken (E:=ToyECDSA) 1500 1500 3 (example_card "org-x") example_org_token toy_key))
      (Public toy_key) zero_AgentTokenClaims 2000 = Ok agentClaims
    /\ ac_Verified agentClaims = oc_Verified example_org_claims.
Proof.
  apply (IssueAgentToken_inherits_verified (E:=ToyECDSA) 1500 1500 3 (example_card "org-x") example_org_token
           toy_key example_org_claims).
  - vm_compute. reflexivity.
  - vm_compute. reflexivity.
  - unfold DefaultTokenExpiry. lia.
Defined.

(** C4: the keyless parsers hand the ECDSA verifier a nil key, so
    [ParseOrgToken], [ParseAgentTokenClaims] and [ParseAgentToken] fail on
    every token string; on one that parses with an ECDSA method the error is
    a signature-invalid error wrapping the invalid-key-type error. *)
Theorem keyless_parsers_always_fail {E : ECDSA} (tokenString : TokenString) (now : Z) :
  is_err (ParseOrgToken tokenString now) = true
  /\ is_err (ParseAgentTokenClaims tokenString now) = true
  /\ is_err (ParseAgentToken tokenString now) = true
  /\ (forall t, ParseUnverified tokenString zero_OrgTokenClaims = Ok t -> is_ecdsa (tok_Method t) = true ->
        err_kind (ParseOrgToken tokenString now) ErrTokenSignatureInvalid = true
        /\ err_kind (ParseOrgToken tokenString now) ErrInvalidKeyType = true)
  /\ (forall t, ParseUnverified tokenString zero_AgentTokenClaims = Ok t -> is_ecdsa (tok_Method t) = true ->
        err_kind (ParseAgentTokenClaims tokenString now) ErrTokenSignatureInvalid = true
        /\ err_kind (ParseAgentTokenClaims tokenString now) ErrInvalidKeyType = true)
  /\ (forall t, ParseUnverified tokenString ([] : MapClaims) = Ok t -> is_ecdsa (tok_Method t) = true ->
        err_kind (ParseAgentToken tokenString now) ErrTokenSignatureInvalid = true
        /\ err_kind (ParseAgentToken tokenString now) ErrInvalidKeyType = true).
Proof.
  destruct (ParseWithClaims_keyless NewParser_exp_iat tokenString zero_OrgTokenClaims now) as [Ho Ho'].
  destruct (ParseWithClaims_keyless NewParser_exp_iat tokenString zero_AgentTokenClaims now) as [Ha Ha'].
  destruct (ParseWithClaims_keyless NewParser_exp_iat tokenString ([] : MapClaims) now) as [Hm Hm'].
  unfold ParseOrgToken, ParseAgentTokenClaims, ParseAgentToken.
  destruct (ParseWithClaims NewParser_exp_iat tokenString zero_OrgTokenClaims (ecdsa_keyfunc KeyNil) now);
    [discriminate Ho|].
  destruct (ParseWithClaims NewParser_exp_iat tokenString zero_AgentTokenClaims (ecdsa_keyfunc KeyNil) now);
    [discriminate Ha|].
  destruct (ParseWithClaims NewParser_exp_iat tokenString ([] : MapClaims) (ecdsa_keyfunc KeyNil) now);
    [discriminate Hm|].
  split; [destruct (ParseUnverified tokenString zero_OrgTokenClaims); reflexivity|].
  split; [destruct (ParseUnverified tokenString zero_AgentTokenClaims); reflexivity|].
  split; [reflexivity|].
  split; [|split].
  - intros t Ht Hec. rewrite Ht. exact (Ho' t Ht Hec).
  - intros t Ht Hec. rewrite Ht. exact (Ha' t Ht Hec).
  - intros t Ht Hec. exact (Hm' t Ht Hec).
Qed.

Lemma ParseTokenWithPublicKey_signature_ok {E : ECDSA} {C} `{Claims C} (tokenString : TokenString)
    (publicKey : PublicKey) (claims : C) (t : Token C) (now : Z)
    (name : string) (hash keySize bits : Z) :
  ParseUnverified tokenString claims = Ok t ->
  tok_Method t = SigningMethodECDSA name hash keySize bits ->
  ecdsa_verify bits publicKey (tok_SigningInput t) (tok_Signature t) = true ->
  ParseTokenWithPublicKey tokenString publicKey claims now
  = match Validator_Validate NewParser_exp_iat (tok_Claims t) now with
    | Some e => Err (newError "" (sentinel ErrTokenInvalidClaims) [e])
    | None => Ok (tok_Claims t)
    end.
Proof.
  intros Hu Hm Hv.
  unfold ParseTokenWithPublicKey, ParseWithClaims. rewrite Hu.
  unfold ecdsa_keyfunc. rewrite Hm. cbn [is_ecdsa Verify]. rewrite Hv.
  destruct (Validator_Validate NewParser_exp_iat (tok_Claims t) now); reflexivity.
Qed.

(** C3 (as the code behaves): with a P-256 key, [IssueOrgToken] succeeds and,
    at every second of the hour that follows, its token verifies with
    [ParseTokenWithPublicKey] and the public key: issuer atoa.platform,
    audience [atoa.agent], iat the issuing second, exp one hour later, the
    verified flag given, and as org_id the org id as the JSON encoder wrote
    it (each byte that is not part of valid UTF-8 becomes U+FFFD), so it is
    the org id itself exactly when the org id is valid UTF-8. *)
Theorem IssueOrgToken_roundtrip {E : ECDSA} (now nonce t : Z) (orgID : string) (verified : bool)
    (privateKey : PrivateKey) :
  BitSize privateKey = 256 ->
  now <= t < now + DefaultTokenExpiry ->
  exists tok orgClaims,
    IssueOrgToken now nonce orgID verified privateKey = (tok, None)
    /\ ParseTokenWithPublicKey tok (Public privateKey) zero_OrgTokenClaims t = Ok orgClaims
    /\ oc_OrgID orgClaims = coerce_utf8 orgID
    /\ (oc_OrgID orgClaims = orgID <-> ValidString orgID = true)
    /\ oc_Verified orgClaims = verified
    /\ Issuer (oc_RegisteredClaims orgClaims) = TokenIssuer
    /\ Audience (oc_RegisteredClaims orgClaims) = [OrgTokenAudience]
    /\ IssuedAt (oc_RegisteredClaims orgClaims) = Some now
    /\ ExpiresAt (oc_RegisteredClaims orgClaims) = Some (now + DefaultTokenExpiry).
Proof.
  intros Hb Ht.
  unfold IssueOrgToken. rewrite (SignedString_ES256_ok _ _ _ Hb).
  eexists. eexists. split; [reflexivity|]. split.
  - apply ParseTokenWithPublicKey_signed; [exact Hb | apply unmarshal_issued_org_claims |].
    apply (Validate_window _ now); [reflexivity | reflexivity | reflexivity | exact Ht].
  - cbn [oc_OrgID oc_Verified oc_RegisteredClaims Issuer Audience IssuedAt ExpiresAt].
    split; [reflexivity|]. split; [apply coerce_utf8_fixed_iff|].
    repeat split.
Qed.

Lemma IssueOrgToken_roundtrip_witness :
  exists tok orgClaims,
    IssueOrgToken (E:=ToyECDSA) 1000 7 "org-x" true toy_key = (tok, None)
    /\ ParseTokenWithPublicKey (E:=ToyECDSA) tok (Public (ECDSA:=ToyECDSA) toy_key) zero_OrgTokenClaims 1500 = Ok orgClaims
    /\ oc_OrgID orgClaims = coerce_utf8 "org-x"
    /\ (oc_OrgID orgClaims = "org-x" <-> ValidString "org-x" = true)
    /\ oc_Verified orgClaims = true
    /\ Issuer (oc_RegisteredClaims orgClaims) = TokenIssuer
    /\ Audience (oc_RegisteredClaims orgClaims) = [OrgTokenAudience]
    /\ IssuedAt (oc_RegisteredClaims orgClaims) = Some 1000
    /\ ExpiresAt (oc_RegisteredClaims orgClaims) = Some (1000 + DefaultTokenExpiry).
Proof.
  apply (IssueOrgToken_roundtrip (E:=ToyECDSA) 1000 7 1500 "org-x" true toy_key).
  - reflexivity.
  - unfold DefaultTokenExpiry. lia.
Defined.

(** C3 fails for an org id that is not valid UTF-8: the token for the byte
    0xFF verifies, but its org_id is U+FFFD. *)
Lemma IssueOrgToken_roundtrip_counterexample :
  ParseTokenWithPublicKey (E:=ToyECDSA)
    (fst (IssueOrgToken (E:=ToyECDSA) 1000 7 invalid_utf8_org true toy_key))
    (Public (ECDSA:=ToyECDSA) toy_key) zero_OrgTokenClaims 1500
  = Ok (mkOrgTokenClaims
          (mkRegisteredClaims TokenIssuer "" [OrgTokenAudience] (Some 4600) None (Some 1000) "")
          RuneError true)
  /\ RuneError <> invalid_utf8_org.
Proof. split; [vm_compute; reflexivity | discriminate]. Qed.

(** C5 (as the code behaves): for a token string that parses, names an ECDSA
    method, carries a valid signature and whose dates are whole seconds that
    jwt reads exactly ([token_dates_exact]), a missing exp is rejected with an
    invalid-claims error wrapping required-claim-missing (not a malformed
    error); a missing iat is not rejected: with exp in the future and nbf
    absent or past, verification succeeds. Only exp is mandatory. *)
Theorem ParseTokenWithPublicKey_exp_required_iat_optional {E : ECDSA} {C} `{Claims C}
    (tokenString : TokenString) (publicKey : PublicKey) (claims : C) (t : Token C) (now : Z)
    (name : string) (hash keySize bits : Z) (nbf iat : option Z) :
  token_dates_exact tokenString = true ->
  ParseUnverified tokenString claims = Ok t ->
  tok_Method t = SigningMethodECDSA name hash keySize bits ->
  ecdsa_verify bits publicKey (tok_SigningInput t) (tok_Signature t) = true ->
  GetNotBefore (tok_Claims t) = Ok nbf ->
  GetIssuedAt (tok_Claims t) = Ok iat ->
  (GetExpirationTime (tok_Claims t) = Ok None ->
     exists e, ParseTokenWithPublicKey tokenString publicKey claims now = Err e
       /\ errors_Is e ErrTokenInvalidClaims = true
       /\ errors_Is e ErrTokenRequiredClaimMissing = true
       /\ errors_Is e ErrTokenMalformed = false)
  /\ (forall exp, GetExpirationTime (tok_Claims t) = Ok (Some exp) -> now < exp ->
        iat = None -> (forall x, nbf = Some x -> x <= now) ->
        ParseTokenWithPublicKey tokenString publicKey claims now = Ok (tok_Claims t)).
Proof.
  intros _ Hu Hm Hv Hn Hi.
  rewrite (ParseTokenWithPublicKey_signature_ok tokenString publicKey claims t now name hash keySize bits Hu Hm Hv).
  unfold Validator_Validate, verifyExpiresAt, verifyNotBefore, verifyIssuedAt.
  rewrite Hn, Hi. cbn [requireExp verifyIat NewParser_exp_iat].
  split.
  - intros He. rewrite He.
    destruct nbf as [x|]; [destruct (now <? x)|]; destruct iat as [y|]; try destruct (now <? y);
      eexists; (split; [reflexivity|]); repeat split.
  - intros exp He Hlt -> Hnbf. rewrite He.
    rewrite (proj2 (Z.ltb_lt now exp) Hlt).
    destruct nbf as [x|].
    + rewrite (proj2 (Z.ltb_ge now x) (Hnbf x eq_refl)). reflexivity.
    + reflexivity.
Qed.

Lemma ParseTokenWithPublicKey_exp_required_iat_optional_witness :
  ParseUnverified no_iat_token zero_OrgTokenClaims = Ok no_iat_parsed
  /\ ParseTokenWithPublicKey (E:=ToyECDSA) no_iat_token (Public (ECDSA:=ToyECDSA) toy_key)
       zero_OrgTokenClaims 1500
     = Ok (tok_Claims no_iat_parsed).
Proof.
  split; [vm_compute; reflexivity|].
  refine (proj2 (ParseTokenWithPublicKey_exp_required_iat_optional (E:=ToyECDSA)
                   no_iat_token (Public (ECDSA:=ToyECDSA) toy_key) zero_OrgTokenClaims no_iat_parsed 1500
                   "ES256" 256 32 256 None None _ _ _ _ _ _) 4600 _ _ _ _).
  - vm_compute. reflexivity.
  - vm_compute. reflexivity.
  - reflexivity.
  - vm_compute. reflexivity.
  - reflexivity.
  - reflexivity.
  - reflexivity.
  - lia.
  - reflexivity.
  - discriminate.
Defined.

(** C5 fails: a correctly signed token without iat verifies. *)
Lemma ParseTokenWithPublicKey_requires_iat_counterexample :
  ParseTokenWithPublicKey (E:=ToyECDSA) no_iat_token (Public (ECDSA:=ToyECDSA) toy_key)
    zero_OrgTokenClaims 1500
  = Ok (mkOrgTokenClaims
          (mkRegisteredClaims TokenIssuer "" [OrgTokenAudience] (Some 4600) None None "")
          "org-x" true).
Proof. vm_compute. reflexivity. Qed.

(** C6: for a token string that parses, names an ECDSA method and carries a
    valid signature, but whose exp is not after the verification second, the
    verifier fails with an invalid-claims error wrapping token-expired, which
    is neither a malformed, a signature-invalid nor an unverifiable error. *)
Theorem ParseTokenWithPublicKey_expired {E : ECDSA} {C} `{Claims C}
    (tokenString : TokenString) (publicKey : PublicKey) (claims : C) (t : Token C) (now : Z)
    (name : string) (hash keySize bits : Z) (exp : Z) (nbf iat : option Z) :
  ParseUnverified tokenString claims = Ok t ->
  tok_Method t = SigningMethodECDSA name hash keySize bits ->
  ecdsa_verify bits publicKey (tok_SigningInput t) (tok_Signature t) = true ->
  GetExpirationTime (tok_Claims t) = Ok (Some exp) ->
  exp <= now ->
  GetNotBefore (tok_Claims t) = Ok nbf ->
  GetIssuedAt (tok_Claims t) = Ok iat ->
  exists e, ParseTokenWithPublicKey tokenString publicKey claims now = Err e
    /\ errors_Is e ErrTokenExpired = true
    /\ errors_Is e ErrTokenInvalidClaims = true
    /\ errors_Is e ErrTokenMalformed = false
    /\ errors_Is e ErrTokenSignatureInvalid = false
    /\ errors_Is e ErrTokenUnverifiable = false.
Proof.
  intros Hu Hm Hv He Hle Hn Hi.
  rewrite (ParseTokenWithPublicKey_signature_ok tokenString publicKey claims t now name hash keySize bits Hu Hm Hv).
  unfold Validator_Validate, verifyExpiresAt, verifyNotBefore, verifyIssuedAt.
  rewrite He, Hn, Hi. cbn [requireExp verifyIat NewParser_exp_iat].
  rewrite (proj2 (Z.ltb_ge now exp) Hle).
  destruct nbf as [x|]; [destruct (now <? x)|]; destruct iat as [y|]; try destruct (now <? y);
    eexists; (split; [reflexivity|]); repeat split.
Qed.

(** The org token issued at 1000 read at 4600, the second it expires. *)
Lemma ParseTokenWithPublicKey_expired_witness :
  exists e, ParseTokenWithPublicKey (E:=ToyECDSA) example_org_token (Public (ECDSA:=ToyECDSA) toy_key)
              zero_OrgTokenClaims 4600 = Err e
    /\ errors_Is e ErrTokenExpired = true
    /\ errors_Is e ErrTokenInvalidClaims = true
    /\ errors_Is e ErrTokenMalformed = false
    /\ errors_Is e ErrTokenSignatureInvalid = false
    /\ errors_Is e ErrTokenUnverifiable = false.
Proof.
  apply (ParseTokenWithPublicKey_expired (E:=ToyECDSA) example_org_token (Public (ECDSA:=ToyECDSA) toy_key)
           zero_OrgTokenClaims example_org_parsed 4600 "ES256" 256 32 256 4600 None (Some 1000)).
  - vm_compute. reflexivity.
  - reflexivity.
  - vm_compute. reflexivity.
  - reflexivity.
  - lia.
  - reflexivity.
  - reflexivity.
Defined.

Section VerifySignatureSpec.
Variable K : Type.
Variable parse_pkix : string -> result (PKIXKey K).
Variable verify_asn1 : K -> string -> string -> bool.
Variable sum256 : string -> string.

(** C8: [VerifySignature] reports an error exactly when the PEM text has no
    block, the block's key is not an ECDSA public key (or does not parse), or
    the signature is not base64; an error always comes with false. When all
    three succeed there is no error and the result is the verdict of
    [ecdsa.VerifyASN1], so an incorrect signature gives (false, nil). *)
Theorem VerifySignature_error_iff_undecodable (challenge signature publicKeyPEM : string) :
  (snd (VerifySignature K parse_pkix verify_asn1 sum256 challenge signature publicKeyPEM) <> None <->
     fst (pem_Decode publicKeyPEM) = None
     \/ (exists block, fst (pem_Decode publicKeyPEM) = Some block
                       /\ forall pk, parse_pkix (blk_Bytes block) <> Ok (PKIXKeyECDSA pk))
     \/ StdEncoding_DecodeString signature = None)
  /\ (snd (VerifySignature K parse_pkix verify_asn1 sum256 challenge signature publicKeyPEM) <> None ->
        fst (VerifySignature K parse_pkix verify_asn1 sum256 challenge signature publicKeyPEM) = false)
  /\ (forall block pk sig,
        fst (pem_Decode publicKeyPEM) = Some block ->
        parse_pkix (blk_Bytes block) = Ok (PKIXKeyECDSA pk) ->
        StdEncoding_DecodeString signature = Some sig ->
        VerifySignature K parse_pkix verify_asn1 sum256 challenge signature publicKeyPEM
        = (verify_asn1 pk (sum256 challenge) sig, None)
        /\ (verify_asn1 pk (sum256 challenge) sig = false ->
            VerifySignature K parse_pkix verify_asn1 sum256 challenge signature publicKeyPEM
            = (false, None))).
Proof.
  unfold VerifySignature, parsePublicKey.
  destruct (fst (pem_Decode publicKeyPEM)) as [block|] eqn:Hp.
  - destruct (parse_pkix (blk_Bytes block)) as [[pk|]|e] eqn:Hk.
    + destruct (StdEncoding_DecodeString signature) as [sig|] eqn:Hs.
      * split; [|split].
        -- cbn [snd]. split; [intros H; exfalso; apply H; reflexivity|].
           intros [H|[[b [Hb Hn]]|H]]; [discriminate H| |discriminate H].
           injection Hb as <-. exfalso. exact (Hn pk Hk).
        -- cbn [snd]. intros H; exfalso; apply H; reflexivity.
        -- intros b pk' sig' Hb Hk' Hs'.
           injection Hb as <-. rewrite Hk in Hk'. injection Hk' as <-.
           injection Hs' as <-. split; [reflexivity|]. intros ->. reflexivity.
      * split; [|split].
        -- cbn [snd]. split; [intros _; right; right; reflexivity | discriminate].
        -- reflexivity.
        -- intros b pk' sig' _ _ Hs'. discriminate Hs'.
    + split; [|split].
      * cbn [snd]. split; [intros _; right; left | discriminate].
        exists block. split; [reflexivity|]. intros pk. rewrite Hk. discriminate.
      * reflexivity.
      * intros b pk' sig' Hb Hk'. injection Hb as <-. rewrite Hk in Hk'. discriminate Hk'.
    + split; [|split].
      * cbn [snd]. split; [intros _; right; left | discriminate].
        exists block. split; [reflexivity|]. intros pk. rewrite Hk. discriminate.
      * reflexivity.
      * intros b pk' sig' Hb Hk'. injection Hb as <-. rewrite Hk in Hk'. discriminate Hk'.
  - split; [|split].
    + cbn [snd]. split; [intros _; left; reflexivity | discriminate].
    + reflexivity.
    + intros b pk' sig' Hb. discriminate Hb.
Qed.

End VerifySignatureSpec.

(** C9 (as the code behaves): [OrgCard.Validate] accepts a card exactly when
    org id, name, domain and public key are non-empty and [pem.Decode] finds
    a block of type PUBLIC KEY in the public key; the block's bytes are never
    parsed. With the four fields set, a string with no PEM block is rejected
    as "invalid public key format", a block of another type as "public key
    must be in PEM format", and the two errors differ. *)
Theorem OrgCard_Validate_pem_type_only (oc : OrgCard) :
  (OrgCard_Validate oc = None <->
     org_OrgID oc <> "" /\ org_Name oc <> "" /\ org_Domain oc <> "" /\ org_PublicKey oc <> ""
     /\ exists block, fst (pem_Decode (org_PublicKey oc)) = Some block /\ blk_Type block = "PUBLIC KEY")
  /\ (org_OrgID oc <> "" -> org_Name oc <> "" -> org_Domain oc <> "" -> org_PublicKey oc <> "" ->
        fst (pem_Decode (org_PublicKey oc)) = None ->
        OrgCard_Validate oc = Some err_invalid_public_key_format)
  /\ (org_OrgID oc <> "" -> org_Name oc <> "" -> org_Domain oc <> "" -> org_PublicKey oc <> "" ->
        forall block, fst (pem_Decode (org_PublicKey oc)) = Some block -> blk_Type block <> "PUBLIC KEY" ->
        OrgCard_Validate oc = Some err_public_key_not_pem)
  /\ err_invalid_public_key_format <> err_public_key_not_pem.
Proof.
  unfold OrgCard_Validate.
  destruct (String.eqb (org_OrgID oc) "") eqn:H1;
    [apply String.eqb_eq in H1; split; [split; [discriminate | intros [H _]; contradiction] |
       split; [intros H; contradiction | split; [intros H; contradiction | discriminate]]]|].
  apply String.eqb_neq in H1.
  destruct (String.eqb (org_Name oc) "") eqn:H2;
    [apply String.eqb_eq in H2; split; [split; [discriminate | intros [_ [H _]]; contradiction] |
       split; [intros _ H; contradiction | split; [intros _ H; contradiction | discriminate]]]|].
  apply String.eqb_neq in H2.
  destruct (String.eqb (org_Domain oc) "") eqn:H3;
    [apply String.eqb_eq in H3; split; [split; [discriminate | intros [_ [_ [H _]]]; contradiction] |
       split; [intros _ _ H; contradiction | split; [intros _ _ H; contradiction | discriminate]]]|].
  apply String.eqb_neq in H3.
  destruct (String.eqb (org_PublicKey oc) "") eqn:H4;
    [apply String.eqb_eq in H4; split; [split; [discriminate | intros [_ [_ [_ [H _]]]]; contradiction] |
       split; [intros _ _ _ H; contradiction | split; [intros _ _ _ H; contradiction | discriminate]]]|].
  apply String.eqb_neq in H4.
  destruct (fst (pem_Decode (org_PublicKey oc))) as [block|] eqn:Hp.
  - destruct (String.eqb (blk_Type block) "PUBLIC KEY") eqn:Ht; cbn [negb].
    + apply String.eqb_eq in Ht. split; [|split; [|split]].
      * split; [intros _ | reflexivity]. repeat split; try assumption.
        exists block. split; [reflexivity | exact Ht].
      * intros _ _ _ _ Hn. discriminate Hn.
      * intros _ _ _ _ b Hb Hn. injection Hb as <-. contradiction.
      * discriminate.
    + apply String.eqb_neq in Ht. split; [|split; [|split]].
      * split; [discriminate|]. intros [_ [_ [_ [_ [b [Hb Hb']]]]]].
        injection Hb as <-. contradiction.
      * intros _ _ _ _ Hn. discriminate Hn.
      * reflexivity.
      * discriminate.
  - split; [|split; [|split]].
    + split; [discriminate|]. intros [_ [_ [_ [_ [b [Hb _]]]]]]. discriminate Hb.
    + reflexivity.
    + intros _ _ _ _ b Hb. discriminate Hb.
    + discriminate.
Qed.

(** C9 fails: a card whose public key is a PUBLIC KEY block holding three
    zero bytes (no DER public key: that would start with byte 0x30) passes
    [OrgCard.Validate]. *)
Lemma OrgCard_Validate_counterexample :
  OrgCard_Validate non_der_org_card = None
  /\ fst (pem_Decode (org_PublicKey non_der_org_card))
     = Some (mkBlock "PUBLIC KEY" [] (String zero_byte (String zero_byte (String zero_byte EmptyString)))).
Proof. split; vm_compute; reflexivity. Qed.

(** C10 (as the code behaves): [IssueAgentToken] does not validate the card.
    When the org token verifies under the key, its org_id is the card's
    OrgID and the key is P-256, it issues a token with a nil error for every
    card, also one that [AgentCard.Validate] rejects. The validation gate is
    [AgentClient.RegisterAgent], which refuses such a card with "invalid
    agent card: " and the validation error, before any request. *)
Theorem IssueAgentToken_no_card_validation {E : ECDSA} (vnow now nonce : Z) (card : AgentCard)
    (orgToken : TokenString) (privateKey : PrivateKey) (orgClaims : OrgTokenClaims) :
  ParseTokenWithPublicKey orgToken (Public privateKey) zero_OrgTokenClaims vnow = Ok orgClaims ->
  oc_OrgID orgClaims = card_OrgID card ->
  BitSize privateKey = 256 ->
  (exists tok, IssueAgentToken vnow now nonce card orgToken privateKey = (tok, None)
               /\ tok <> empty_token)
  /\ (forall post_register e, AgentCard_Validate card = Some e ->
        RegisterAgent post_register card orgToken = Err (errorf_w "invalid agent card: " e)).
Proof.
  intros Hp Heq Hb. split.
  - unfold IssueAgentToken. rewrite Hp, Heq, String.eqb_refl. cbn [negb].
    rewrite (SignedString_ES256_ok _ _ _ Hb).
    eexists. split; [reflexivity | discriminate].
  - intros post e Hv. unfold RegisterAgent. rewrite Hv. reflexivity.
Qed.

(** A card with no agent id and no capability, for org-x. *)
Lemma IssueAgentToken_no_card_validation_witness :
  (exists tok, IssueAgentToken (E:=ToyECDSA) 1500 1500 3 invalid_card example_org_token toy_key
                 = (tok, None) /\ tok <> empty_token)
  /\ (forall post_register e, AgentCard_Validate invalid_card = Some e ->
        RegisterAgent post_register invalid_card example_org_token = Err (errorf_w "invalid agent card: " e)).
Proof.
  apply (IssueAgentToken_no_card_validation (E:=ToyECDSA) 1500 1500 3 invalid_card
           example_org_token toy_key example_org_claims).
  - vm_compute. reflexivity.
  - reflexivity.
  - reflexivity.
Defined.

(** C10 fails: the card is rejected by [AgentCard.Validate], yet
    [IssueAgentToken] returns a nil error. *)
Lemma IssueAgentToken_card_validation_counterexample :
  AgentCard_Validate invalid_card = Some (errors_New "agent_id is required")
  /\ snd (IssueAgentToken (E:=ToyECDSA) 1500 1500 3 invalid_card example_org_token toy_key) = None.
Proof. split; vm_compute; reflexivity. Qed.

(* ================================================================== *)
(** * Further properties of the code *)

(** X1: [base64.StdEncoding] decodes what it encodes: the signature text
    [SignChallenge] returns is read back by [VerifySignature] as the same
    bytes, whatever they are. *)
Theorem StdEncoding_DecodeString_EncodeToString (s : string) :
  StdEncoding_DecodeString (StdEncoding_EncodeToString s) = Some s.
Proof. apply StdEncoding_decode_encode. Qed.

(** X2: the text [SignChallenge] returns for n signature bytes has
    4 * ceil(n / 3) characters. *)
Lemma StdEncoding_EncodeToString_length (s : string) :
  (String.length (StdEncoding_EncodeToString s) = 4 * ((String.length s + 2) / 3))%nat.
Proof.
  unfold StdEncoding_EncodeToString.
  induction s as [s IH] using (well_founded_induction (Wf_nat.well_founded_ltof _ String.length)).
  destruct s as [|a [|b [|c rest]]]; cbn [encode_quanta].
  - reflexivity.
  - reflexivity.
  - reflexivity.
  - cbn [String.length]. rewrite IH by (unfold Wf_nat.ltof; cbn [String.length]; lia).
    replace (S (S (S (String.length rest))) + 2)%nat with (String.length rest + 2 + 1 * 3)%nat by lia.
    rewrite Nat.div_add by lia. lia.
Qed.

Section ChallengeSpec.
Variable EcPrivateKey EcPublicKey : Type.
Variable PublicOf : EcPrivateKey -> EcPublicKey.
Variable sign_asn1 : EcPrivateKey -> Z -> string -> result string.
Variable verify_asn1 : EcPublicKey -> string -> string -> bool.
Variable parse_pkix : string -> result (PKIXKey EcPublicKey).
Variable sum256 : string -> string.
(** ECDSA correctness: a signature verifies under the signer's public key. *)
Hypothesis sign_verify : forall k n h sig, sign_asn1 k n h = Ok sig -> verify_asn1 (PublicOf k) h sig = true.

(** X3: if the PEM text decodes to a block whose bytes parse as the public
    key of [privateKey], a signature made by [SignChallenge] for a
    challenge verifies for it with [VerifySignature] (true, nil error); for
    any other challenge [VerifySignature] reports no error either (only the
    boolean can differ). *)
Lemma SignChallenge_VerifySignature (challenge other : string) (privateKey : EcPrivateKey) (nonce : Z)
    (publicKeyPEM : string) (block : Block) (signature : string) :
  fst (pem_Decode publicKeyPEM) = Some block ->
  parse_pkix (blk_Bytes block) = Ok (PKIXKeyECDSA (PublicOf privateKey)) ->
  SignChallenge EcPrivateKey sign_asn1 sum256 challenge privateKey nonce = Ok signature ->
  VerifySignature EcPublicKey parse_pkix verify_asn1 sum256 challenge signature publicKeyPEM = (true, None)
  /\ snd (VerifySignature EcPublicKey parse_pkix verify_asn1 sum256 other signature publicKeyPEM) = None.
Proof.
  intros Hd Hk Hs.
  unfold SignChallenge in Hs.
  destruct (sign_asn1 privateKey nonce (sum256 challenge)) as [sig|e] eqn:Ha; [|discriminate Hs].
  injection Hs as <-.
  unfold VerifySignature, parsePublicKey. rewrite Hd, Hk.
  unfold StdEncoding_EncodeToString. rewrite StdEncoding_decode_encode.
  rewrite (sign_verify _ _ _ _ Ha). split; reflexivity.
Qed.

End ChallengeSpec.

Section KeyErrors.
Variable K : Type.
Variable parse_pkix : string -> result (PKIXKey K).
Variable verify_asn1 : K -> string -> string -> bool.
Variable sum256 : string -> string.

(** X4: when the PEM block decodes but its key does not parse, [VerifySignature]
    returns false and an error whose message carries the prefix "failed to
    parse public key: " twice (from [parsePublicKey] and from
    [VerifySignature]) before the x509 error, whose wrapped sentinels it
    keeps; a key that is not ECDSA gives "failed to parse public key: public
    key is not an ECDSA key". *)
Lemma VerifySignature_key_errors (challenge signature publicKeyPEM : string) (block : Block) :
  fst (pem_Decode publicKeyPEM) = Some block ->
  (forall e, parse_pkix (blk_Bytes block) = Err e ->
     VerifySignature K parse_pkix verify_asn1 sum256 challenge signature publicKeyPEM
     = (false, Some (mkError ("failed to parse public key: failed to parse public key: " ++ err_msg e) (err_is e))))
  /\ (parse_pkix (blk_Bytes block) = Ok PKIXKeyOther ->
      VerifySignature K parse_pkix verify_asn1 sum256 challenge signature publicKeyPEM
      = (false, Some (mkError "failed to parse public key: public key is not an ECDSA key" []))).
Proof.
  intros Hd. unfold VerifySignature, parsePublicKey. rewrite Hd.
  split; [intros e He | intros He]; rewrite He; reflexivity.
Qed.

End KeyErrors.

(** X5: for a token string that parses with an ECDSA method, whose time
    claims can be read and whose dates are whole seconds that jwt reads
    exactly ([token_dates_exact]), [ParseTokenWithPublicKey] returns a nil error exactly
    when the signature verifies under the public key, exp is present and
    after [now], and nbf and iat, when present, are not after [now]; the
    claims it then returns are the token's. *)
Lemma ParseTokenWithPublicKey_accepts_iff {E : ECDSA} {C} `{Claims C}
    (tokenString : TokenString) (publicKey : PublicKey) (claims : C) (t : Token C) (now : Z)
    (name : string) (hash keySize bits : Z) (exp nbf iat : option Z) :
  token_dates_exact tokenString = true ->
  ParseUnverified tokenString claims = Ok t ->
  tok_Method t = SigningMethodECDSA name hash keySize bits ->
  GetExpirationTime (tok_Claims t) = Ok exp ->
  GetNotBefore (tok_Claims t) = Ok nbf ->
  GetIssuedAt (tok_Claims t) = Ok iat ->
  (forall c, ParseTokenWithPublicKey tokenString publicKey claims now = Ok c -> c = tok_Claims t)
  /\ (is_err (ParseTokenWithPublicKey tokenString publicKey claims now) = false
      <-> ecdsa_verify bits publicKey (tok_SigningInput t) (tok_Signature t) = true
          /\ (exists e, exp = Some e /\ now < e)
          /\ (forall x, nbf = Some x -> x <= now)
          /\ (forall x, iat = Some x -> x <= now)).
Proof.
  intros _ Hu Hm He Hn Hi.
  pose proof (Validate_exp_iat_None_iff (tok_Claims t) now exp nbf iat He Hn Hi) as HV.
  unfold ParseTokenWithPublicKey, ParseWithClaims. rewrite Hu.
  unfold ecdsa_keyfunc. rewrite Hm. cbn [is_ecdsa Verify].
  destruct (ecdsa_verify bits publicKey (tok_SigningInput t) (tok_Signature t)).
  - destruct (Validator_Validate NewParser_exp_iat (tok_Claims t) now) eqn:Hv.
    + split; [intros c Hc; discriminate Hc|].
      split; [intros HH; discriminate HH|].
      intros [_ HH]. apply HV in HH. discriminate HH.
    + split; [intros c Hc; injection Hc as <-; reflexivity|].
      split; [intros _; split; [reflexivity | apply HV; reflexivity] | reflexivity].
  - split; [intros c Hc; discriminate Hc|].
    split; [intros HH; discriminate HH | intros [HH _]; discriminate HH].
Qed.

(** X5 on the org token issued at 1000, read at 2000. *)
Lemma ParseTokenWithPublicKey_accepts_iff_witness :
  ParseUnverified example_org_token zero_OrgTokenClaims = Ok example_org_parsed
  /\ is_err (ParseTokenWithPublicKey (E:=ToyECDSA) example_org_token (Public (ECDSA:=ToyECDSA) toy_key)
               zero_OrgTokenClaims 2000) = false.
Proof.
  split; [vm_compute; reflexivity|].
  refine (proj2 (proj2 (ParseTokenWithPublicKey_accepts_iff (E:=ToyECDSA) example_org_token
           (Public (ECDSA:=ToyECDSA) toy_key) zero_OrgTokenClaims example_org_parsed 2000
           "ES256" 256 32 256 (Some 4600) None (Some 1000) _ _ _ _ _ _)) _).
  - vm_compute. reflexivity.
  - vm_compute. reflexivity.
  - reflexivity.
  - reflexivity.
  - reflexivity.
  - reflexivity.
  - split; [vm_compute; reflexivity|].
    split; [exists 4600; split; [reflexivity | lia]|].
    split; intros x Hx; [discriminate Hx | injection Hx as <-; lia].
Defined.

(** X6: a token that parses with an ECDSA method but whose signature does not
    verify is rejected with "token signature is invalid: crypto/ecdsa:
    verification error", wrapping exactly the signature-invalid and ECDSA
    verification sentinels, whatever its claims and the time: the claims
    are never checked. *)
Lemma ParseTokenWithPublicKey_bad_signature {E : ECDSA} {C} `{Claims C}
    (tokenString : TokenString) (publicKey : PublicKey) (claims : C) (t : Token C) (now : Z)
    (name : string) (hash keySize bits : Z) :
  ParseUnverified tokenString claims = Ok t ->
  tok_Method t = SigningMethodECDSA name hash keySize bits ->
  ecdsa_verify bits publicKey (tok_SigningInput t) (tok_Signature t) = false ->
  ParseTokenWithPublicKey tokenString publicKey claims now
  = Err (mkError "token signature is invalid: crypto/ecdsa: verification error"
                 [ErrTokenSignatureInvalid; ErrECDSAVerification]).
Proof.
  intros Hu Hm Hv.
  unfold ParseTokenWithPublicKey, ParseWithClaims. rewrite Hu.
  unfold ecdsa_keyfunc. rewrite Hm. cbn [is_ecdsa Verify]. rewrite Hv. reflexivity.
Qed.

(** The org token checked against another key. *)
Lemma ParseTokenWithPublicKey_bad_signature_witness :
  ParseTokenWithPublicKey (E:=ToyECDSA) example_org_token "other" zero_OrgTokenClaims 1500
  = Err (mkError "token signature is invalid: crypto/ecdsa: verification error"
                 [ErrTokenSignatureInvalid; ErrECDSAVerification]).
Proof.
  apply (ParseTokenWithPublicKey_bad_signature (E:=ToyECDSA) example_org_token "other" zero_OrgTokenClaims
           example_org_parsed 1500 "ES256" 256 32 256); [vm_compute; reflexivity | reflexivity | reflexivity].
Defined.

(** X7: the errors [ParseTokenWithPublicKey] returns before any signature
    check: a token string that does not parse gives [ParseUnverified]'s
    error unchanged, which wraps exactly one sentinel, malformed or
    unverifiable; a token whose method is not ECDSA gives "token is
    unverifiable: error while executing keyfunc: unexpected signing method:
    " followed by the algorithm name. *)
Lemma ParseTokenWithPublicKey_early_errors {E : ECDSA} {C} `{Claims C}
    (tokenString : TokenString) (publicKey : PublicKey) (claims : C) (now : Z) :
  (forall e, ParseUnverified tokenString claims = Err e ->
     ParseTokenWithPublicKey tokenString publicKey claims now = Err e
     /\ (err_is e = [ErrTokenMalformed] \/ err_is e = [ErrTokenUnverifiable]))
  /\ (forall t name, ParseUnverified tokenString claims = Ok t -> tok_Method t = SigningMethodOther name ->
     ParseTokenWithPublicKey tokenString publicKey claims now
     = Err (mkError ("token is unverifiable: error while executing keyfunc: unexpected signing method: " ++ name)
                    [ErrTokenUnverifiable])).
Proof.
  split.
  - intros e Hu. split; [|exact (ParseUnverified_error_kinds _ _ _ Hu)].
    unfold ParseTokenWithPublicKey, ParseWithClaims. rewrite Hu. reflexivity.
  - intros t name Hu Hm.
    unfold ParseTokenWithPublicKey, ParseWithClaims. rewrite Hu.
    unfold ecdsa_keyfunc. rewrite Hm. reflexivity.
Qed.

(** X8: with a private key whose curve is not 256 bits, [IssueOrgToken]
    returns no token and jwt's invalid-key error, and so does
    [IssueAgentToken] once the org token has been accepted and the org ids
    match. *)
Lemma IssueOrgToken_invalid_key {E : ECDSA} (privateKey : PrivateKey) :
  BitSize privateKey <> 256 ->
  (forall now nonce orgID verified,
     IssueOrgToken now nonce orgID verified privateKey = (empty_token, Some (sentinel ErrInvalidKey)))
  /\ (forall vnow now nonce card orgToken orgClaims,
        ParseTokenWithPublicKey orgToken (Public privateKey) zero_OrgTokenClaims vnow = Ok orgClaims ->
        oc_OrgID orgClaims = card_OrgID card ->
        IssueAgentToken vnow now nonce card orgToken privateKey = (empty_token, Some (sentinel ErrInvalidKey))).
Proof.
  intros Hb. assert (Hb' : (BitSize privateKey =? 256) = false) by (apply Z.eqb_neq; exact Hb).
  split.
  - intros. unfold IssueOrgToken, SignedString, Sign, SigningMethodES256. rewrite Hb'. reflexivity.
  - intros vnow now nonce card orgToken orgClaims Hp Ho.
    unfold IssueAgentToken. rewrite Hp, Ho, String.eqb_refl. cbn [negb].
    unfold SignedString, Sign, SigningMethodES256. rewrite Hb'. reflexivity.
Qed.

(** A P-384 sized key. *)
Lemma IssueOrgToken_invalid_key_witness :
  IssueOrgToken (E:=ToyECDSA) 1000 7 "org-x" true ("platform", 384) = (empty_token, Some (sentinel ErrInvalidKey))
  /\ IssueAgentToken (E:=ToyECDSA) 1500 1500 3 (example_card "org-x") example_org_token ("platform", 384)
     = (empty_token, Some (sentinel ErrInvalidKey)).
Proof.
  pose proof (IssueOrgToken_invalid_key (E:=ToyECDSA) ("platform", 384) ltac:(cbn; lia)) as [H1 H2].
  split; [apply H1|].
  apply (H2 1500 1500 3 (example_card "org-x") example_org_token example_org_claims);
    [vm_compute; reflexivity | reflexivity].
Defined.

Section IssueAgent.
Context {E : ECDSA}.

(** X9: [IssueAgentToken] reports why an org token (parsing with an ECDSA
    method) is refused, with the prefix "invalid org token: " and no token:
    a signature that does not verify under the issuer's public key gives
    the signature-invalid error; a verified org token whose exp is not after
    the verification second gives an error that is expired and invalid
    claims, and not signature-invalid. *)
Lemma IssueAgentToken_org_token_failures (vnow now nonce : Z) (card : AgentCard)
    (orgToken : TokenString) (privateKey : PrivateKey) (t : Token OrgTokenClaims)
    (name : string) (hash keySize bits : Z) :
  ParseUnverified orgToken zero_OrgTokenClaims = Ok t ->
  tok_Method t = SigningMethodECDSA name hash keySize bits ->
  (ecdsa_verify bits (Public privateKey) (tok_SigningInput t) (tok_Signature t) = false ->
     IssueAgentToken vnow now nonce card orgToken privateKey
     = (empty_token, Some (mkError "invalid org token: token signature is invalid: crypto/ecdsa: verification error"
                             [ErrTokenSignatureInvalid; ErrECDSAVerification])))
  /\ (forall exp, ecdsa_verify bits (Public privateKey) (tok_SigningInput t) (tok_Signature t) = true ->
        ExpiresAt (oc_RegisteredClaims (tok_Claims t)) = Some exp -> exp <= vnow ->
        exists e, IssueAgentToken vnow now nonce card orgToken privateKey = (empty_token, Some e)
          /\ String.prefix "invalid org token: " (err_msg e) = true
          /\ errors_Is e ErrTokenExpired = true
          /\ errors_Is e ErrTokenInvalidClaims = true
          /\ errors_Is e ErrTokenSignatureInvalid = false).
Proof.
  intros Hu Hm. split.
  - intros Hv. unfold IssueAgentToken.
    rewrite (ParseTokenWithPublicKey_verify_false _ _ _ t vnow name hash keySize bits Hu Hm Hv).
    reflexivity.
  - intros exp Hv He Hle.
    unfold IssueAgentToken.
    rewrite (ParseTokenWithPublicKey_signature_ok _ _ _ t vnow name hash keySize bits Hu Hm Hv).
    assert (HE : GetExpirationTime (tok_Claims t) = Ok (Some exp)) by exact (f_equal (@Ok (option Z)) He).
    destruct (Validate_expired_error (tok_Claims t) vnow exp
                (NotBefore (oc_RegisteredClaims (tok_Claims t)))
                (IssuedAt (oc_RegisteredClaims (tok_Claims t))) HE Hle
                eq_refl eq_refl) as [e [Hve [H1 [H2 H3]]]].
    rewrite Hve.
    eexists. split; [reflexivity|].
    unfold errorf_w, newError, errors_Is in *. cbn [err_msg err_is sentinel String.eqb] in *.
    split; [reflexivity|].
    cbn. rewrite !app_nil_r. rewrite H1, H2. repeat split.
Qed.

(** X10: when the org token verifies and its org id is the card's, a P-256
    key makes [IssueAgentToken] succeed, and during the hour from [now] its
    token verifies to exactly: issuer atoa.platform, audience
    [atoa.session], iat [now], exp [now] + 3600, no nbf, the card's agent id,
    org id and capabilities as the JSON encoder wrote them, and the org
    token's verified flag; from [now] + 3600 on it is rejected as expired. *)
Lemma IssueAgentToken_agent_claims (vnow now nonce : Z) (card : AgentCard)
    (orgToken : TokenString) (privateKey : PrivateKey) (orgClaims : OrgTokenClaims) :
  BitSize privateKey = 256 ->
  ParseTokenWithPublicKey orgToken (Public privateKey) zero_OrgTokenClaims vnow = Ok orgClaims ->
  oc_OrgID orgClaims = card_OrgID card ->
  exists tok, IssueAgentToken vnow now nonce card orgToken privateKey = (tok, None)
    /\ (forall t, now <= t < now + DefaultTokenExpiry ->
          ParseTokenWithPublicKey tok (Public privateKey) zero_AgentTokenClaims t
          = Ok (mkAgentTokenClaims
                  (mkRegisteredClaims TokenIssuer "" [AgentTokenAudience]
                     (Some (now + DefaultTokenExpiry)) None (Some now) "")
                  (coerce_utf8 (card_AgentID card)) (coerce_utf8 (card_OrgID card))
                  (oc_Verified orgClaims) (map coerce_utf8 (card_Capabilities card))))
    /\ (forall t, now + DefaultTokenExpiry <= t ->
          exists e, ParseTokenWithPublicKey tok (Public privateKey) zero_AgentTokenClaims t = Err e
            /\ errors_Is e ErrTokenExpired = true /\ errors_Is e ErrTokenInvalidClaims = true).
Proof.
  intros Hb Hp Ho.
  unfold IssueAgentToken. rewrite Hp, Ho, String.eqb_refl. cbn [negb].
  rewrite (SignedString_ES256_ok _ _ _ Hb).
  eexists. split; [reflexivity|]. split.
  - intros t Ht.
    apply ParseTokenWithPublicKey_signed; [exact Hb | apply unmarshal_issued_agent_claims |].
    apply (Validate_window _ now); [reflexivity | reflexivity | reflexivity | exact Ht].
  - intros t Ht.
    rewrite (ParseTokenWithPublicKey_signature_ok _ _ _ _ t "ES256" 256 32 256
               (ParseUnverified_signed _ _ _ _ (unmarshal_issued_agent_claims _ _ _ _ _)) eq_refl
               (ecdsa_verify_sign 256 privateKey nonce _ Hb)).
    destruct (Validate_expired_error (C:=AgentTokenClaims)
                (mkAgentTokenClaims
                   (mkRegisteredClaims TokenIssuer "" [AgentTokenAudience]
                      (Some (now + DefaultTokenExpiry)) None (Some now) "")
                   (coerce_utf8 (card_AgentID card)) (coerce_utf8 (card_OrgID card))
                   (oc_Verified orgClaims) (map coerce_utf8 (card_Capabilities card)))
                t (now + DefaultTokenExpiry) None (Some now)) as [e [Hve [H1 _]]];
      [reflexivity | exact Ht | reflexivity | reflexivity |].
    cbn [tok_Claims]. rewrite Hve.
    eexists. split; [reflexivity|].
    unfold newError, errors_Is in *. cbn [err_is sentinel] in *.
    cbn [flat_map app existsb ErrKind_beq orb]. rewrite app_nil_r, H1. split; reflexivity.
Qed.

(** X11: an agent token is accepted where [IssueAgentToken] expects an org
    token: during its hour it verifies as an org token (its audience
    [atoa.session] is not checked) and [IssueAgentToken] issues a new agent
    token from it, for any card with the same org id. *)
Lemma IssueAgentToken_accepts_agent_token (vnow now nonce : Z) (card : AgentCard)
    (orgToken : TokenString) (privateKey : PrivateKey) (agentToken : TokenString)
    (vnow' now' nonce' : Z) (card' : AgentCard) :
  IssueAgentToken vnow now nonce card orgToken privateKey = (agentToken, None) ->
  now <= vnow' < now + DefaultTokenExpiry ->
  card_OrgID card' = coerce_utf8 (card_OrgID card) ->
  exists orgClaims tok,
    ParseTokenWithPublicKey agentToken (Public privateKey) zero_OrgTokenClaims vnow' = Ok orgClaims
    /\ Audience (oc_RegisteredClaims orgClaims) = [AgentTokenAudience]
    /\ IssueAgentToken vnow' now' nonce' card' agentToken privateKey = (tok, None).
Proof.
  intros Hi Ht Hc.
  unfold IssueAgentToken in Hi.
  destruct (ParseTokenWithPublicKey orgToken (Public privateKey) zero_OrgTokenClaims vnow) as [oc|e];
    [|discriminate Hi].
  destruct (negb (String.eqb (oc_OrgID oc) (card_OrgID card))); [discriminate Hi|].
  apply SignedString_ES256_inv in Hi. destruct Hi as [Hb ->].
  assert (Hp : ParseTokenWithPublicKey
                 (Compact (header_of SigningMethodES256)
                    (marshal_AgentTokenClaims
                       (mkAgentTokenClaims
                          (mkRegisteredClaims TokenIssuer "" [AgentTokenAudience]
                             (Some (now + DefaultTokenExpiry)) None (Some now) "")
                          (card_AgentID card) (card_OrgID card) (oc_Verified oc) (card_Capabilities card)))
                    (ecdsa_sign 256 privateKey nonce
                       (header_of SigningMethodES256,
                        marshal_AgentTokenClaims
                          (mkAgentTokenClaims
                             (mkRegisteredClaims TokenIssuer "" [AgentTokenAudience]
                                (Some (now + DefaultTokenExpiry)) None (Some now) "")
                             (card_AgentID card) (card_OrgID card) (oc_Verified oc) (card_Capabilities card)))))
                 (Public privateKey) zero_OrgTokenClaims vnow'
               = Ok (mkOrgTokenClaims
                       (mkRegisteredClaims TokenIssuer "" [AgentTokenAudience]
                          (Some (now + DefaultTokenExpiry)) None (Some now) "")
                       (coerce_utf8 (card_OrgID card)) (oc_Verified oc))).
  { apply ParseTokenWithPublicKey_signed; [exact Hb | apply unmarshal_agent_claims_as_org |].
    apply (Validate_window _ now); [reflexivity | reflexivity | reflexivity | exact Ht]. }
  do 2 eexists. split; [exact Hp|]. split; [reflexivity|].
  unfold IssueAgentToken. rewrite Hp. cbn [oc_OrgID]. rewrite Hc, String.eqb_refl. cbn [negb].
  rewrite (SignedString_ES256_ok _ _ _ Hb). reflexivity.
Qed.

End IssueAgent.

(** A bad signature, and the org token read at 4600. *)
Lemma IssueAgentToken_org_token_failures_witness :
  IssueAgentToken (E:=ToyECDSA) 1500 1500 3 (example_card "org-x") example_org_token ("other", 256)
  = (empty_token, Some (mkError "invalid org token: token signature is invalid: crypto/ecdsa: verification error"
                          [ErrTokenSignatureInvalid; ErrECDSAVerification]))
  /\ exists e, IssueAgentToken (E:=ToyECDSA) 4600 4600 3 (example_card "org-x") example_org_token toy_key
               = (empty_token, Some e)
       /\ String.prefix "invalid org token: " (err_msg e) = true
       /\ errors_Is e ErrTokenExpired = true
       /\ errors_Is e ErrTokenInvalidClaims = true
       /\ errors_Is e ErrTokenSignatureInvalid = false.
Proof.
  split.
  - refine (proj1 (IssueAgentToken_org_token_failures (E:=ToyECDSA) 1500 1500 3 (example_card "org-x")
                     example_org_token ("other", 256) example_org_parsed "ES256" 256 32 256 _ _) _);
      [vm_compute; reflexivity | reflexivity | reflexivity].
  - refine (proj2 (IssueAgentToken_org_token_failures (E:=ToyECDSA) 4600 4600 3 (example_card "org-x")
                     example_org_token toy_key example_org_parsed "ES256" 256 32 256 _ _) 4600 _ _ _);
      [vm_compute; reflexivity | reflexivity | reflexivity | reflexivity | lia].
Defined.

(** The agent token for [example_card "org-x"]. *)
Lemma IssueAgentToken_agent_claims_witness :
  exists tok, IssueAgentToken (E:=ToyECDSA) 1500 1500 3 (example_card "org-x") example_org_token toy_key = (tok, None)
    /\ (forall t, 1500 <= t < 1500 + DefaultTokenExpiry ->
          ParseTokenWithPublicKey (E:=ToyECDSA) tok (Public (ECDSA:=ToyECDSA) toy_key) zero_AgentTokenClaims t
          = Ok (mkAgentTokenClaims
                  (mkRegisteredClaims TokenIssuer "" [AgentTokenAudience]
                     (Some (1500 + DefaultTokenExpiry)) None (Some 1500) "")
                  (coerce_utf8 "agent-1") (coerce_utf8 "org-x") true (map coerce_utf8 ["search"])))
    /\ (forall t, 1500 + DefaultTokenExpiry <= t ->
          exists e, ParseTokenWithPublicKey (E:=ToyECDSA) tok (Public (ECDSA:=ToyECDSA) toy_key) zero_AgentTokenClaims t = Err e
            /\ errors_Is e ErrTokenExpired = true /\ errors_Is e ErrTokenInvalidClaims = true).
Proof.
  apply (IssueAgentToken_agent_claims (E:=ToyECDSA) 1500 1500 3 (example_card "org-x") example_org_token
           toy_key example_org_claims); [reflexivity | vm_compute; reflexivity | reflexivity].
Defined.

(** The agent token for org-x used as an org token. *)
Lemma IssueAgentToken_accepts_agent_token_witness :
  exists orgClaims tok,
    ParseTokenWithPublicKey (E:=ToyECDSA)
      (fst (IssueAgentToken (E:=ToyECDSA) 1500 1500 3 (example_card "org-x") example_org_token toy_key))
      (Public (ECDSA:=ToyECDSA) toy_key) zero_OrgTokenClaims 2000 = Ok orgClaims
    /\ Audience (oc_RegisteredClaims orgClaims) = [AgentTokenAudience]
    /\ IssueAgentToken (E:=ToyECDSA) 2000 2000 5 (example_card "org-x")
         (fst (IssueAgentToken (E:=ToyECDSA) 1500 1500 3 (example_card "org-x") example_org_token toy_key))
         toy_key = (tok, None).
Proof.
  apply (IssueAgentToken_accepts_agent_token (E:=ToyECDSA) 1500 1500 3 (example_card "org-x")
           example_org_token toy_key); [vm_compute; reflexivity | unfold DefaultTokenExpiry; lia | reflexivity].
Defined.

(** Signing a challenge with the key whose public key is the block of
    [non_der_public_key]. *)
Lemma SignChallenge_VerifySignature_witness :
  SignChallenge string toy_SignASN1 toy_Sum256 "challenge-1" three_zero_bytes 0 = Ok "AAAA"
  /\ VerifySignature string toy_ParsePKIX toy_VerifyASN1 toy_Sum256 "challenge-1" "AAAA" non_der_public_key
     = (true, None)
  /\ snd (VerifySignature string toy_ParsePKIX toy_VerifyASN1 toy_Sum256 "challenge-2" "AAAA" non_der_public_key)
     = None.
Proof.
  split; [vm_compute; reflexivity|].
  apply (SignChallenge_VerifySignature string string (fun k => k) toy_SignASN1 toy_VerifyASN1 toy_ParsePKIX
           toy_Sum256 toy_SignASN1_VerifyASN1 "challenge-1" "challenge-2" three_zero_bytes 0 non_der_public_key
           non_der_block).
  - exact (eq_refl : fst (pem_Decode non_der_public_key) = Some non_der_block).
  - reflexivity.
  - vm_compute. reflexivity.
Defined.

(** An x509 error for [non_der_public_key]. *)
Lemma VerifySignature_key_errors_witness :
  VerifySignature string (fun _ => Err pkix_error) toy_VerifyASN1 toy_Sum256 "challenge-1" "AAAA" non_der_public_key
  = (false, Some (mkError "failed to parse public key: failed to parse public key: x509: malformed public key" [])).
Proof.
  refine (proj1 (VerifySignature_key_errors string (fun _ => Err pkix_error) toy_VerifyASN1 toy_Sum256
                   "challenge-1" "AAAA" non_der_public_key non_der_block _) pkix_error _).
  - vm_compute. reflexivity.
  - reflexivity.
Defined.

Section ClientSpec.
Variable post : string -> json -> result HttpResponse.
Variable type_error : error.

(** X12: [RegisterOrg] and [RegisterAgent] validate the card first: an
    invalid card gives "invalid org card: " or "invalid agent card: "
    followed by the validation error, and no request is sent; a valid card
    gives exactly one POST, to the base URL followed by /orgs/register
    (resp. /agents/token), with the card (resp. the card and org token) as
    JSON body. *)
Lemma registration_validates_card_first (BaseURL : string) (oc : OrgCard) (ac : AgentCard) (orgToken : string) :
  (forall e, OrgCard_Validate oc = Some e ->
     OrgClient_RegisterOrg post type_error BaseURL oc = (Err (errorf_w "invalid org card: " e), []))
  /\ (OrgCard_Validate oc = None ->
      snd (OrgClient_RegisterOrg post type_error BaseURL oc)
      = [mkRequest (BaseURL ++ "/orgs/register") (marshal_OrgCard oc)])
  /\ (forall e, AgentCard_Validate ac = Some e ->
        AgentClient_RegisterAgent post type_error BaseURL ac orgToken = (Err (errorf_w "invalid agent card: " e), []))
  /\ (AgentCard_Validate ac = None ->
      snd (AgentClient_RegisterAgent post type_error BaseURL ac orgToken)
      = [mkRequest (BaseURL ++ "/agents/token") (RegisterAgent_payload ac orgToken)]).
Proof.
  unfold OrgClient_RegisterOrg, AgentClient_RegisterAgent.
  split; [intros e He; rewrite He; reflexivity|].
  split; [intros He; rewrite He; reflexivity|].
  split; [intros e He; rewrite He; reflexivity|].
  intros He; rewrite He; reflexivity.
Qed.

(** X13: a response whose status is not 200 makes [RegisterOrg],
    [RequestToken], [RegisterAgent] and [JoinSession] fail with "...
    failed with status N" (N the status in decimal), an error that wraps
    nothing; the body is not read. *)
Lemma client_status_not_ok (BaseURL : string) (oc : OrgCard) (ac : AgentCard)
    (orgID challenge signature orgToken sessionID agentToken : string) (resp : HttpResponse) :
  StatusCode resp <> 200 ->
  (OrgCard_Validate oc = None ->
   post (BaseURL ++ "/orgs/register") (marshal_OrgCard oc) = Ok resp ->
   fst (OrgClient_RegisterOrg post type_error BaseURL oc)
   = Err (mkError ("registration failed with status " ++ format_int (StatusCode resp)) []))
  /\ (post (BaseURL ++ "/orgs/token") (RequestToken_payload orgID challenge signature) = Ok resp ->
      fst (OrgClient_RequestToken post type_error BaseURL orgID challenge signature)
      = Err (mkError ("token request failed with status " ++ format_int (StatusCode resp)) []))
  /\ (AgentCard_Validate ac = None ->
      post (BaseURL ++ "/agents/token") (RegisterAgent_payload ac orgToken) = Ok resp ->
      fst (AgentClient_RegisterAgent post type_error BaseURL ac orgToken)
      = Err (mkError ("registration failed with status " ++ format_int (StatusCode resp)) []))
  /\ (post (BaseURL ++ "/sessions/join") (JoinSession_payload sessionID agentToken) = Ok resp ->
      fst (AgentClient_JoinSession post BaseURL sessionID agentToken)
      = Some (mkError ("join failed with status " ++ format_int (StatusCode resp)) [])).
Proof.
  intros Hs. assert (Hb : (StatusCode resp =? 200) = false) by (apply Z.eqb_neq; exact Hs).
  unfold OrgClient_RegisterOrg, OrgClient_RequestToken, AgentClient_RegisterAgent, AgentClient_JoinSession.
  split; [intros Hv Hp; rewrite Hv; cbn [fst]; rewrite Hp, Hb; reflexivity|].
  split; [intros Hp; cbn [fst]; rewrite Hp, Hb; reflexivity|].
  split; [intros Hv Hp; rewrite Hv; cbn [fst]; rewrite Hp, Hb; reflexivity|].
  intros Hp; cbn [fst]; rewrite Hp, Hb; reflexivity.
Qed.

(** X14: a 200 response whose JSON object has only ASCII keys, none
    matching the expected field (challenge, resp. token, ignoring case), makes [RegisterOrg],
    [RequestToken] and [RegisterAgent] return an empty string with a nil
    error. *)
Lemma client_ok_without_field (BaseURL : string) (oc : OrgCard) (ac : AgentCard)
    (orgID challenge signature orgToken : string) (resp : HttpResponse) (kv : list (string * json)) :
  StatusCode resp = 200 ->
  Body resp = Ok (JObj kv) ->
  forallb ascii_only (map fst kv) = true ->
  (forallb (fun k => negb (field_matches k "challenge")) (map fst kv) = true ->
   OrgCard_Validate oc = None ->
   post (BaseURL ++ "/orgs/register") (marshal_OrgCard oc) = Ok resp ->
   fst (OrgClient_RegisterOrg post type_error BaseURL oc) = Ok "")
  /\ (forallb (fun k => negb (field_matches k "token")) (map fst kv) = true ->
      (post (BaseURL ++ "/orgs/token") (RequestToken_payload orgID challenge signature) = Ok resp ->
       fst (OrgClient_RequestToken post type_error BaseURL orgID challenge signature) = Ok "")
      /\ (AgentCard_Validate ac = None ->
          post (BaseURL ++ "/agents/token") (RegisterAgent_payload ac orgToken) = Ok resp ->
          fst (AgentClient_RegisterAgent post type_error BaseURL ac orgToken) = Ok "")).
Proof.
  intros Hs Hb _.
  unfold OrgClient_RegisterOrg, OrgClient_RequestToken, AgentClient_RegisterAgent, decode_response, unmarshal_struct.
  split.
  - intros Hn Hv Hp. rewrite Hv. cbn [fst]. rewrite Hp, Hs, Hb. cbn [Z.eqb Pos.eqb negb].
    rewrite (decode_fields_no_match _ _ _ Hn). reflexivity.
  - intros Hn. split.
    + intros Hp. cbn [fst]. rewrite Hp, Hs, Hb. cbn [Z.eqb Pos.eqb negb].
      rewrite (decode_fields_no_match _ _ _ Hn). reflexivity.
    + intros Hv Hp. rewrite Hv. cbn [fst]. rewrite Hp, Hs, Hb. cbn [Z.eqb Pos.eqb negb].
      rewrite (decode_fields_no_match _ _ _ Hn). reflexivity.
Qed.

(** X15: [JoinSession] returns a nil error exactly when the POST to
    /sessions/join succeeds with status 200, whatever the body. *)
Lemma JoinSession_ok_iff (BaseURL sessionID agentToken : string) :
  fst (AgentClient_JoinSession post BaseURL sessionID agentToken) = None
  <-> exists resp, post (BaseURL ++ "/sessions/join") (JoinSession_payload sessionID agentToken) = Ok resp
                   /\ StatusCode resp = 200.
Proof.
  unfold AgentClient_JoinSession. cbn [fst].
  destruct (post (BaseURL ++ "/sessions/join") (JoinSession_payload sessionID agentToken)) as [resp|e].
  - destruct (StatusCode resp =? 200) eqn:Hs; cbn [negb].
    + split; [intros _; exists resp; split; [reflexivity | apply Z.eqb_eq; exact Hs] | reflexivity].
    + split; [intros H; discriminate H|].
      intros [r [Hr Hc]]. injection Hr as <-. apply Z.eqb_neq in Hs. contradiction.
  - split; [intros H; discriminate H|]. intros [r [Hr _]]. discriminate Hr.
Qed.

End ClientSpec.

(** A server answering 404. *)
Lemma client_status_not_ok_witness :
  fst (OrgClient_RegisterOrg (respond 404 JNull) json_error base_url non_der_org_card)
  = Err (mkError "registration failed with status 404" []).
Proof.
  refine (proj1 (client_status_not_ok (respond 404 JNull) json_error base_url non_der_org_card
                   (example_card "org-x") "org-x" "c" "s" "t" "session-1" "t"
                   (mkHttpResponse 404 (Ok JNull)) _) _ _).
  - discriminate.
  - vm_compute. reflexivity.
  - reflexivity.
Defined.

(** A server answering 200 with {"status": "ok"}. *)
Lemma client_ok_without_field_witness :
  fst (OrgClient_RegisterOrg (respond 200 (JObj [("status", JStr "ok")])) json_error base_url non_der_org_card)
  = Ok "".
Proof.
  refine (proj1 (client_ok_without_field (respond 200 (JObj [("status", JStr "ok")])) json_error base_url
                   non_der_org_card (example_card "org-x") "org-x" "c" "s" "t"
                   (mkHttpResponse 200 (Ok (JObj [("status", JStr "ok")]))) [("status", JStr "ok")] _ _ _) _ _ _).
  - reflexivity.
  - reflexivity.
  - reflexivity.
  - reflexivity.
  - vm_compute. reflexivity.
  - reflexivity.
Defined.
